(** * kurobbs_auto_checkin: a shallow embedding of [auto_checkin.py]

    The script signs a user in on the Kuro community platform: two HTTP
    actions ([checkin], [sign_in]) are run in sequence by
    [KurobbsClient.start], their outcomes are aggregated, and [main] turns
    the aggregate into push notifications and a process exit code.

    The embedding keeps the shape of the Python code.  Library calls that
    talk to the outside ([requests.post], [requests.get], [os.getenv],
    [datetime.now], the Bark notifier) are read from a [World]; everything
    the script itself computes is a Rocq function.  Every observable effect
    is recorded, in order, in a trace of [event]s. *)

From Stdlib Require Import ZArith String Ascii List Bool Lia DecimalString.
Import ListNotations.
Local Open Scope string_scope.
Set Warnings "-register-all".

(* ================================================================== *)
(** ** Python values *)
(* ================================================================== *)

(** Values that [json] parsing produces and that the script passes around.
    A [dict] is an association list in insertion order; a float is kept as
    its printed form, since the script never computes with one. *)
Inductive pyval : Type :=
| PNone
| PBool (b : bool)
| PInt (z : Z)
| PFloat (repr : string)
| PStr (s : string)
| PList (l : list pyval)
| PDict (d : list (string * pyval)).

(** Exceptions deriving from [Exception].  [KurobbsClientException] is the
    script's own class; [PyException cls msg] stands for an instance of any
    other class, with [str(e) = msg]. *)
Inductive exn : Type :=
| KurobbsClientException (msg : string)
| PyException (cls : string) (msg : string).

Definition str_exn (e : exn) : string :=
  match e with
  | KurobbsClientException m => m
  | PyException _ m => m
  end.

(** [class Response(BaseModel)].  [data: Optional[Any]] is a Python value,
    [None] when the field is missing. *)
Module Response.
Record t : Type := mk {
  code : Z;
  msg : string;
  success : option bool;
  data : pyval
}.
End Response.

Inductive level : Type := DEBUG | INFO | WARNING | ERROR.

Definition payload : Type := list (string * pyval).
Definition headers : Type := list (string * option string).

(** What a run does to the outside, in order. *)
Inductive event : Type :=
| EvPost (url : string) (h : headers) (d : payload)
| EvGet (url : string) (timeout : Z)
| EvLog (lvl : level) (text : string)
| EvBark (message : string)
| EvLoggerConfig (lvl : level).

(** The environment of one run.
    - [http_post url h d] is [requests.post] followed by
      [Response.model_validate_json]: an envelope, or the exception either
      of the two raised;
    - [http_get_json url] is [requests.get(url, timeout=10)] followed by
      [response.json()];
    - [bark m] is [ext_bark.send_bark_notification(m)], a module that is not
      part of the script: [None] when it returns, [Some e] when it raises;
    - [py_str] is the built-in [str] on parsed JSON values. *)
Record World : Type := mkWorld {
  getenv : string -> option string;
  now_month : Z;
  http_post : string -> headers -> payload -> exn + Response.t;
  http_get_json : string -> exn + pyval;
  bark : string -> option exn;
  py_str : pyval -> string
}.

(* ================================================================== *)
(** ** Effects: a trace-and-exception monad *)
(* ================================================================== *)

(** Module-level code: a trace and either an exception or a value. *)
Definition IO (A : Type) : Type := list event * (exn + A).

Definition io_ret {A} (a : A) : IO A := ([], inr a).

Definition io_bind {A B} (m : IO A) (k : A -> IO B) : IO B :=
  match m with
  | (t, inl e) => (t, inl e)
  | (t, inr a) => let (t', r) := k a in ((t ++ t')%list, r)
  end.

Definition io_raise {A} (e : exn) : IO A := ([], inl e).

Definition io_emit (ev : event) : IO unit := ([ev], inr tt).

(** [try: m  except Exception as e: h e] *)
Definition io_try {A} (m : IO A) (h : exn -> IO A) : IO A :=
  match m with
  | (t, inl e) => let (t', r) := h e in ((t ++ t')%list, r)
  | (t, inr a) => (t, inr a)
  end.

Definition io_of_sum {A} (r : exn + A) : IO A := ([], r).

Declare Scope io_scope.
Delimit Scope io_scope with io.
Notation "x <~ m ;; k" := (io_bind m (fun x => k))
  (at level 61, m at next level, right associativity) : io_scope.
Notation "m ;;; k" := (io_bind m (fun _ => k))
  (at level 61, right associativity) : io_scope.

(* ================================================================== *)
(** ** Built-ins the script relies on *)
(* ================================================================== *)

Definition str_int (z : Z) : string := NilZero.string_of_int (Z.to_int z).

Fixpoint zeros (n : nat) : string :=
  match n with
  | O => EmptyString
  | S k => String "0" (zeros k)
  end.

(** [f"{z:02d}"]: sign, then zeros, then the digits; at least two wide. *)
Definition format_02d (z : Z) : string :=
  if (z <? 0)%Z then
    let ds := str_int (Z.abs z) in
    "-" ++ zeros (1 - String.length ds) ++ ds
  else
    let ds := str_int z in
    zeros (2 - String.length ds) ++ ds.

(** Python truthiness. *)
Definition truthy (v : pyval) : bool :=
  match v with
  | PNone => false
  | PBool b => b
  | PInt z => negb (z =? 0)%Z
  | PFloat r => negb ((r =? "0.0") || (r =? "-0.0"))
  | PStr s => negb (s =? EmptyString)
  | PList l => match l with [] => false | _ => true end
  | PDict d => match d with [] => false | _ => true end
  end.

Definition truthy_opt_bool (o : option bool) : bool :=
  match o with Some b => b | None => false end.

Definition truthy_opt_str (o : option string) : bool :=
  match o with Some s => negb (s =? EmptyString) | None => false end.

Definition type_name (v : pyval) : string :=
  match v with
  | PNone => "NoneType"
  | PBool _ => "bool"
  | PInt _ => "int"
  | PFloat _ => "float"
  | PStr _ => "str"
  | PList _ => "list"
  | PDict _ => "dict"
  end.

(** Strings are UTF-8 byte strings; [s[0]] is the first code point: the
    lead byte and the continuation bytes (10xxxxxx) after it. *)
Definition is_continuation (c : ascii) : bool :=
  let n := nat_of_ascii c in (128 <=? n)%nat && (n <? 192)%nat.

Fixpoint take_continuation (s : string) : string :=
  match s with
  | String c r => if is_continuation c then String c (take_continuation r) else EmptyString
  | EmptyString => EmptyString
  end.

(** [v[0]] *)
Definition getitem0 (v : pyval) : exn + pyval :=
  match v with
  | PList (x :: _) => inr x
  | PList [] => inl (PyException "IndexError" "list index out of range")
  | PStr (String c r) => inr (PStr (String c (take_continuation r)))
  | PStr EmptyString => inl (PyException "IndexError" "string index out of range")
  | PDict _ => inl (PyException "KeyError" "0")
  | _ => inl (PyException "TypeError"
                ("'" ++ type_name v ++ "' object is not subscriptable"))
  end.

Fixpoint assoc {A} (k : string) (d : list (string * A)) : option A :=
  match d with
  | [] => None
  | (k', v) :: r => if k =? k' then Some v else assoc k r
  end.

(** [v.get(key, default)] *)
Definition py_get (v : pyval) (key : string) (default : pyval) : exn + pyval :=
  match v with
  | PDict d => inr (match assoc key d with Some x => x | None => default end)
  | _ => inl (PyException "AttributeError"
                ("'" ++ type_name v ++ "' object has no attribute 'get'"))
  end.

(** [d[k] = v] on an insertion-ordered dict: an existing key keeps its
    place, a new key goes last. *)
Fixpoint dict_set {A} (k : string) (v : A) (d : list (string * A)) : list (string * A) :=
  match d with
  | [] => [(k, v)]
  | (k', v') :: r => if k =? k' then (k, v) :: r else (k', v') :: dict_set k v r
  end.

Definition values {A} (d : list (string * A)) : list A := map snd d.

(** [sep.join(l)] *)
Definition join (sep : string) (l : list string) : string := String.concat sep l.

(** [urllib.parse.quote(s)] with its default [safe='/']: every byte of the
    UTF-8 string that is not a letter, a digit or one of [_.-~/] becomes
    [%XX], in upper-case hexadecimal. *)
Definition hex_digit (digits : string) (n : nat) : ascii :=
  match String.get n digits with Some c => c | None => "0"%char end.

Definition hex_upper : nat -> ascii := hex_digit "0123456789ABCDEF".
Definition hex_lower : nat -> ascii := hex_digit "0123456789abcdef".

Definition is_unreserved (c : ascii) : bool :=
  let n := nat_of_ascii c in
  ((65 <=? n) && (n <=? 90) || (97 <=? n) && (n <=? 122) || (48 <=? n) && (n <=? 57)
   || (n =? 95) || (n =? 46) || (n =? 45) || (n =? 126))%nat.

Definition quote_byte (c : ascii) : string :=
  let n := nat_of_ascii c in
  if is_unreserved c || (n =? 47)%nat then String c EmptyString
  else String "%" (String (hex_upper (n / 16)) (String (hex_upper (n mod 16)) EmptyString)).

Fixpoint quote (s : string) : string :=
  match s with
  | EmptyString => EmptyString
  | String c r => quote_byte c ++ quote r
  end.

(* ================================================================== *)
(** ** [model_dump_json]: the JSON text pydantic writes *)
(* ================================================================== *)

Definition dquote : string := String (ascii_of_nat 34) EmptyString.
Definition backslash : string := String (ascii_of_nat 92) EmptyString.
Definition newline : string := String (ascii_of_nat 10) EmptyString.

(** Escapes of the serializer: the quote, the backslash and the control
    characters; bytes of non-ASCII characters are written as they are. *)
Definition json_escape_byte (c : ascii) : string :=
  let n := nat_of_ascii c in
  if (n =? 34)%nat then backslash ++ dquote
  else if (n =? 92)%nat then backslash ++ backslash
  else if (n =? 8)%nat then backslash ++ "b"
  else if (n =? 12)%nat then backslash ++ "f"
  else if (n =? 10)%nat then backslash ++ "n"
  else if (n =? 13)%nat then backslash ++ "r"
  else if (n =? 9)%nat then backslash ++ "t"
  else if (n <? 32)%nat then
    backslash ++ "u00"
      ++ String (hex_lower (n / 16)) (String (hex_lower (n mod 16)) EmptyString)
  else String c EmptyString.

Fixpoint json_escape (s : string) : string :=
  match s with
  | EmptyString => EmptyString
  | String c r => json_escape_byte c ++ json_escape r
  end.

Definition json_string (s : string) : string := dquote ++ json_escape s ++ dquote.

Fixpoint spaces (n : nat) : string :=
  match n with
  | O => EmptyString
  | S k => String " " (spaces k)
  end.

(** A container at nesting depth [lvl]: one item per line, [indent] more
    spaces than the container itself. *)
Definition json_block (indent lvl : nat) (opening closing : string)
    (items : list string) : string :=
  let pad := newline ++ spaces (indent * S lvl) in
  opening ++ pad ++ join ("," ++ pad) items
    ++ newline ++ spaces (indent * lvl) ++ closing.

Fixpoint json_dump (indent lvl : nat) (v : pyval) {struct v} : string :=
  match v with
  | PNone => "null"
  | PBool true => "true"
  | PBool false => "false"
  | PInt z => str_int z
  | PFloat r => r
  | PStr s => json_string s
  | PList [] => "[]"
  | PList l => json_block indent lvl "[" "]" (map (json_dump indent (S lvl)) l)
  | PDict [] => "{}"
  | PDict d =>
      json_block indent lvl "{" "}"
        (map (fun kv => match kv with
                        | (k, x) => json_string k ++ ": " ++ json_dump indent (S lvl) x
                        end) d)
  end.

Definition of_opt_bool (o : option bool) : pyval :=
  match o with Some b => PBool b | None => PNone end.

(** The fields of the model, in declaration order. *)
Definition model_fields (r : Response.t) : list (string * pyval) :=
  [ ("code", PInt (Response.code r));
    ("msg", PStr (Response.msg r));
    ("success", of_opt_bool (Response.success r));
    ("data", Response.data r) ].

(** [r.model_dump_json(indent=indent, exclude=exclude)] *)
Definition model_dump_json (indent : nat) (exclude : list string) (r : Response.t) : string :=
  json_dump indent 0
    (PDict (filter (fun kv => negb (existsb (String.eqb (fst kv)) exclude))
              (model_fields r))).

(* ================================================================== *)
(** ** [class KurobbsClient] *)
(* ================================================================== *)

Module KurobbsClient.

(** The attributes of an instance. [result] is the insertion-ordered dict
    of success messages by action name; [exceptions] the recorded failures. *)
Record t : Type := mk {
  token : option string;
  result : list (string * string);
  exceptions : list exn
}.

(** [__init__] *)
Definition init (token : option string) : t :=
  {| token := token; result := []; exceptions := [] |}.

(** A method: a function of [self] that may mutate it before it returns or
    raises; the mutation stays either way. *)
Definition M (A : Type) : Type := t -> t * IO A.

Definition ret {A} (a : A) : M A := fun c => (c, io_ret a).

Definition bind {A B} (m : M A) (k : A -> M B) : M B :=
  fun c =>
    match m c with
    | (c1, (tr, inl e)) => (c1, (tr, inl e))
    | (c1, (tr, inr a)) =>
        match k a c1 with
        | (c2, (tr', r)) => (c2, ((tr ++ tr')%list, r))
        end
    end.

Definition liftIO {A} (m : IO A) : M A := fun c => (c, m).
Definition self : M t := fun c => (c, io_ret c).
Definition modify (f : t -> t) : M unit := fun c => (f c, io_ret tt).

Declare Scope method_scope.
Delimit Scope method_scope with meth.
Notation "x <- m ;; k" := (bind m (fun x => k))
  (at level 61, m at next level, right associativity) : method_scope.
Notation "m ;; k" := (bind m (fun _ => k))
  (at level 61, right associativity) : method_scope.
Local Open Scope method_scope.

Definition FIND_ROLE_LIST_API_URL : string := "https://api.kurobbs.com/user/role/findRoleList".
Definition SIGN_URL : string := "https://api.kurobbs.com/encourage/signIn/v2".
Definition USER_SIGN_URL : string := "https://api.kurobbs.com/user/signIn".

Section Methods.

Variable w : World.

Definition get_headers : M headers :=
  c <- self ;;
  ret [ ("osversion", Some "Android");
        ("devcode", Some "2fba3859fe9bfe9099f2696b8648c2c6");
        ("countrycode", Some "CN");
        ("ip", Some "10.0.2.233");
        ("model", Some "2211133C");
        ("source", Some "android");
        ("lang", Some "zh-Hans");
        ("version", Some "1.0.9");
        ("versioncode", Some "1090");
        ("token", token c);
        ("content-type", Some "application/x-www-form-urlencoded; charset=utf-8");
        ("accept-encoding", Some "gzip");
        ("user-agent", Some "okhttp/3.10.0") ].

(** [requests.post(url, headers=headers, data=data)] and the validation of
    its body, as the world answers them. *)
Definition post_and_validate (url : string) (h : headers) (d : payload) : IO Response.t :=
  ([EvPost url h d], http_post w url h d).

Definition make_request (url : string) (d : payload) : M Response.t :=
  h <- get_headers ;;
  res <- liftIO (post_and_validate url h d) ;;
  liftIO (io_emit (EvLog DEBUG (model_dump_json 2 ["data"] res))) ;;
  ret res.

Definition get_user_game_list (game_id : Z) : M pyval :=
  res <- make_request FIND_ROLE_LIST_API_URL [("gameId", PInt game_id)] ;;
  ret (Response.data res).

(** [user_game_list[0].get(key, default)] *)
Definition first_role_field (user_game_list : pyval) (key : string) (default : pyval)
  : M pyval :=
  role <- liftIO (io_of_sum (getitem0 user_game_list)) ;;
  liftIO (io_of_sum (py_get role key default)).

Definition checkin : M Response.t :=
  user_game_list <- get_user_game_list 3 ;;
  let date := now_month w in
  gameId <- first_role_field user_game_list "gameId" (PInt 2) ;;
  serverId <- first_role_field user_game_list "serverId" PNone ;;
  roleId <- first_role_field user_game_list "roleId" (PInt 0) ;;
  userId <- first_role_field user_game_list "userId" (PInt 0) ;;
  make_request SIGN_URL
    [ ("gameId", gameId);
      ("serverId", serverId);
      ("roleId", roleId);
      ("userId", userId);
      ("reqMonth", PStr (format_02d date)) ].

Definition sign_in : M Response.t :=
  make_request USER_SIGN_URL [("gameId", PInt 2)].

Definition _process_sign_action (action_name : string) (action_method : M Response.t)
    (success_message failure_message : string) : M unit :=
  resp <- action_method ;;
  if truthy_opt_bool (Response.success resp) then
    modify (fun c => {| token := token c;
                        result := dict_set action_name success_message (result c);
                        exceptions := exceptions c |})
  else
    modify (fun c => {| token := token c;
                        result := result c;
                        exceptions := (exceptions c
                                       ++ [KurobbsClientException failure_message])%list |}).

(** The [msg] property. *)
Definition msg (c : t) : string := join ", " (values (result c)) ++ "!".

Definition _log : M unit :=
  c <- self ;;
  (if negb (msg c =? EmptyString)
   then liftIO (io_emit (EvLog INFO (msg c)))
   else ret tt) ;;
  c <- self ;;
  match exceptions c with
  | [] => ret tt
  | _ => liftIO (io_raise (KurobbsClientException (join ", " (map str_exn (exceptions c)))))
  end.

Definition start : M unit :=
  _process_sign_action "checkin" checkin "签到奖励签到成功" "签到奖励签到失败" ;;
  _process_sign_action "sign_in" sign_in "社区签到成功" "社区签到失败" ;;
  _log.

End Methods.

End KurobbsClient.

(* ================================================================== *)
(** ** Module-level functions *)
(* ================================================================== *)

Local Open Scope io_scope.

(** How the interpreter leaves [main]: by returning, through [sys.exit], or
    with an exception nobody caught. *)
Inductive outcome : Type :=
| Returned
| SysExit (status : Z)
| Uncaught (e : exn).

(** The status the process ends with. *)
Definition exit_code (o : outcome) : Z :=
  match o with
  | Returned => 0
  | SysExit n => n
  | Uncaught _ => 1
  end.

Section Script.

Variable w : World.

Definition logger (lvl : level) (text : string) : IO unit := io_emit (EvLog lvl text).

Definition configure_logger (debug : bool) : IO unit :=
  let log_level := if debug then DEBUG else INFO in
  io_emit (EvLoggerConfig log_level).

Definition send_bark_notification (message : string) : IO unit :=
  ([EvBark message], match bark w message with None => inr tt | Some e => inl e end).

Definition send_qmsg_notification (message : string) (qmsg_token : option string) : IO unit :=
  match qmsg_token with
  | Some tok =>
      if negb (tok =? EmptyString) then
        io_try
          (let encoded_msg := quote message in
           let url := "https://qmsg.zendee.cn/send/" ++ tok ++ "?msg=" ++ encoded_msg in
           result <~ ([EvGet url 10], http_get_json w url) ;;
           ok <~ io_of_sum (py_get result "success" PNone) ;;
           if truthy ok then logger INFO "Qmsg推送成功"
           else
             reason <~ io_of_sum (py_get result "reason" PNone) ;;
             logger ERROR ("Qmsg推送失败: " ++ py_str w reason))
          (fun e => logger ERROR ("Qmsg推送异常: " ++ str_exn e))
      else logger WARNING "未配置QMSG_TOKEN，跳过Qmsg推送"
  | None => logger WARNING "未配置QMSG_TOKEN，跳过Qmsg推送"
  end.

Definition send_notifications (message : string) : IO unit :=
  send_bark_notification message ;;;
  let qmsg_token := getenv w "QMSG_TOKEN" in
  send_qmsg_notification message qmsg_token.

(** The body of the [try] in [main]. *)
Definition main_body (token : option string) : IO unit :=
  let kurobbs := KurobbsClient.init token in
  match KurobbsClient.start w kurobbs with
  | (kurobbs', (tr, inl e)) => (tr, inl e)
  | (kurobbs', (tr, inr _)) =>
      (tr, inr tt) ;;;
      if negb (KurobbsClient.msg kurobbs' =? EmptyString)
      then send_notifications (KurobbsClient.msg kurobbs')
      else io_ret tt
  end.

Definition main : list event * outcome :=
  let token := getenv w "TOKEN" in
  let debug := getenv w "DEBUG" in
  let (t0, _) := configure_logger (truthy_opt_str debug) in
  match main_body token with
  | (tr, inr _) => ((t0 ++ tr)%list, Returned)
  | (tr, inl (KurobbsClientException m)) =>
      match
        logger ERROR m ;;;
        send_bark_notification "签到任务失败!"
      with
      | (th, inr _) => ((t0 ++ tr ++ th)%list, SysExit 1)
      | (th, inl e') => ((t0 ++ tr ++ th)%list, Uncaught e')
      end
  | (tr, inl e) =>
      let (th, _) := logger ERROR ("An unexpected error occurred: " ++ str_exn e) in
      ((t0 ++ tr ++ th)%list, SysExit 1)
  end.

End Script.

(* ================================================================== *)
(** ** Reading a trace *)
(* ================================================================== *)

Definition posted_urls (tr : list event) : list string :=
  flat_map (fun ev => match ev with EvPost u _ _ => [u] | _ => [] end) tr.

Definition posted (tr : list event) : list (string * payload) :=
  flat_map (fun ev => match ev with EvPost u _ d => [(u, d)] | _ => [] end) tr.

Definition barked (tr : list event) : list string :=
  flat_map (fun ev => match ev with EvBark m => [m] | _ => [] end) tr.

Definition qmsg_requests (tr : list event) : list string :=
  flat_map (fun ev => match ev with EvGet u _ => [u] | _ => [] end) tr.

Definition level_eqb (a b : level) : bool :=
  match a, b with
  | DEBUG, DEBUG | INFO, INFO | WARNING, WARNING | ERROR, ERROR => true
  | _, _ => false
  end.

Definition logged (lvl : level) (tr : list event) : list string :=
  flat_map (fun ev => match ev with
                      | EvLog l s => if level_eqb l lvl then [s] else []
                      | _ => []
                      end) tr.

Import KurobbsClient.

(** The header dict [self.get_headers()] evaluates to. *)
Definition headers_of (c : KurobbsClient.t) : headers :=
  match KurobbsClient.get_headers c with
  | (_, (_, inr h)) => h
  | (_, (_, inl _)) => []
  end.

(** [resp.success] as the [if] of [_process_sign_action] reads it. *)
Definition succeeded (r : Response.t) : bool := truthy_opt_bool (Response.success r).

(** Events an action may leave: requests and debug lines. *)
Definition action_event (ev : event) : Prop :=
  match ev with
  | EvPost _ _ _ => True
  | EvLog DEBUG _ => True
  | _ => False
  end.

(** What [_process_sign_action] leaves in [self] once the action has
    returned the envelope [r]. *)
Definition recorded (action_name success_message failure_message : string)
    (r : Response.t) (c : KurobbsClient.t) : KurobbsClient.t :=
  if succeeded r then
    {| token := token c;
       result := dict_set action_name success_message (result c);
       exceptions := exceptions c |}
  else
    {| token := token c;
       result := result c;
       exceptions := (exceptions c ++ [KurobbsClientException failure_message])%list |}.

(** [self] after both actions of [start] have returned [r1] and [r2]. *)
Definition after_both (r1 r2 : Response.t) (c : KurobbsClient.t) : KurobbsClient.t :=
  recorded "sign_in" "社区签到成功" "社区签到失败" r2
    (recorded "checkin" "签到奖励签到成功" "签到奖励签到失败" r1 c).

(** What [_log] ends with. *)
Definition raised_by_log (c : KurobbsClient.t) : exn + unit :=
  match exceptions c with
  | [] => inr tt
  | _ => inl (KurobbsClientException (join ", " (map str_exn (exceptions c))))
  end.

(** The failure messages [start] records for the envelopes [r1], [r2], in
    call order. *)
Definition failures_of (r1 r2 : Response.t) : list string :=
  ((if succeeded r1 then [] else ["签到奖励签到失败"])
   ++ (if succeeded r2 then [] else ["社区签到失败"]))%list.

(** The level [main] configures the logger with. *)
Definition log_level_of (w : World) : level :=
  if truthy_opt_str (getenv w "DEBUG") then DEBUG else INFO.

(** The request the secondary channel makes for [message] under credential
    [tok]. *)
Definition qmsg_url (tok message : string) : string :=
  "https://qmsg.zendee.cn/send/" ++ tok ++ "?msg=" ++ quote message.

(** Events [start] may leave: those of the actions and the info line. *)
Definition client_event (ev : event) : Prop :=
  match ev with
  | EvPost _ _ _ => True
  | EvLog DEBUG _ => True
  | EvLog INFO _ => True
  | _ => False
  end.

(** Events that come after [start] in a run of [main]: log lines and the
    calls of the two notifiers. *)
Definition notifier_event (ev : event) : Prop :=
  match ev with
  | EvLog _ _ => True
  | EvBark _ => True
  | EvGet _ _ => True
  | _ => False
  end.

(** A request sent with the headers [h]. *)
Definition sent_with (h : headers) (ev : event) : Prop :=
  match ev with
  | EvPost _ h' _ => h' = h
  | _ => True
  end.

(** The value a dict holds under [key], or [default]: what [d.get] returns. *)
Definition get_or (d : list (string * pyval)) (key : string) (default : pyval) : pyval :=
  match assoc key d with Some x => x | None => default end.

(** The severities of the logger's levels. *)
Definition level_no (l : level) : Z :=
  match l with
  | DEBUG => 10
  | INFO => 20
  | WARNING => 30
  | ERROR => 40
  end.

(** All log calls of a trace, in order. *)
Definition log_lines (tr : list event) : list (level * string) :=
  flat_map (fun ev => match ev with EvLog l s => [(l, s)] | _ => [] end) tr.

(** What the sink on standard output writes: [configure_logger] replaces
    the sinks by one on [sys.stdout] with a minimum level; a log call is
    written when its severity reaches that level.  Before any
    configuration nothing goes to standard output. *)
Fixpoint stdout_lines (sink : option level) (tr : list event) : list (level * string) :=
  match tr with
  | [] => []
  | EvLoggerConfig l :: r => stdout_lines (Some l) r
  | EvLog l s :: r =>
      match sink with
      | Some m =>
          if (level_no m <=? level_no l)%Z then (l, s) :: stdout_lines sink r
          else stdout_lines sink r
      | None => stdout_lines sink r
      end
  | _ :: r => stdout_lines sink r
  end.

(** Any event but a configuration of the logger. *)
Definition not_config (ev : event) : Prop :=
  match ev with EvLoggerConfig _ => False | _ => True end.

(** [url_safe], as a test. *)
Definition url_safeb (c : ascii) : bool :=
  is_unreserved c || (c =? "/")%char || (c =? "%")%char.

(** The value of a hexadecimal digit. *)
Definition hex_value (c : ascii) : nat :=
  let n := nat_of_ascii c in
  if ((48 <=? n) && (n <=? 57))%nat then n - 48
  else if ((65 <=? n) && (n <=? 70))%nat then n - 55
  else if ((97 <=? n) && (n <=? 102))%nat then n - 87
  else 0.

(** Percent-decoding, the inverse a server applies to a query: [%XX] is
    the byte with that code, any other character stands for itself.  It
    is no part of the script; it says what an encoded text carries. *)
Fixpoint percent_decode (s : string) : string :=
  match s with
  | EmptyString => EmptyString
  | String c r =>
      if (c =? "%")%char then
        match r with
        | String a (String b r') =>
            String (ascii_of_nat (16 * hex_value a + hex_value b)) (percent_decode r')
        | _ => String c (percent_decode r)
        end
      else String c (percent_decode r)
  end.

(** The characters [quote] may leave in its result. *)
Definition url_safe (c : ascii) : Prop :=
  is_unreserved c = true \/ c = "/"%char \/ c = "%"%char.

(* ================================================================== *)
(** ** Sample runs *)
(* ================================================================== *)

Module Sample.

Definition envelope (ok : option bool) (d : pyval) : Response.t :=
  {| Response.code := 200; Response.msg := "请求成功";
     Response.success := ok; Response.data := d |}.

Definition role : pyval :=
  PDict [("gameId", PInt 2); ("serverId", PInt 101); ("roleId", PInt 55); ("userId", PInt 9)].

(** Answers by endpoint: the role list, the check-in, the sign-in. *)
Definition answers (roles chk sgn : exn + Response.t)
  : string -> headers -> payload -> exn + Response.t :=
  fun url _ _ =>
    if url =? KurobbsClient.FIND_ROLE_LIST_API_URL then roles
    else if url =? KurobbsClient.SIGN_URL then chk
    else sgn.

Definition env (qmsg : option string) (name : string) : option string :=
  if name =? "TOKEN" then Some "secret"
  else if name =? "QMSG_TOKEN" then qmsg
  else None.

Definition world (roles chk sgn : exn + Response.t) (qmsg : option string)
    (get : exn + pyval) (bark_raises : option exn) : World :=
  {| getenv := env qmsg;
     now_month := 7;
     http_post := answers roles chk sgn;
     http_get_json := fun _ => get;
     bark := fun _ => bark_raises;
     py_str := fun v => match v with PStr s => s | _ => "None" end |}.

Definition roles_ok : exn + Response.t := inr (envelope (Some true) (PList [role])).
Definition roles_empty : exn + Response.t := inr (envelope (Some true) (PList [])).
Definition yes : exn + Response.t := inr (envelope (Some true) PNone).
Definition no : exn + Response.t := inr (envelope (Some false) PNone).
Definition unset : exn + Response.t := inr (envelope None PNone).
Definition get_ok : exn + pyval := inr (PDict [("success", PBool true)]).

Definition all_good : World := world roles_ok yes yes None get_ok None.
Definition first_fails : World := world roles_ok no yes None get_ok None.
Definition second_fails : World := world roles_ok yes no None get_ok None.
Definition both_fail : World := world roles_ok no no None get_ok None.
Definition first_unset : World := world roles_ok unset yes None get_ok None.
Definition no_roles : World := world roles_empty yes yes None get_ok None.
Definition network_down : World :=
  world (inl (PyException "ConnectionError" "connection refused")) yes yes None get_ok None.

Definition fresh : KurobbsClient.t := KurobbsClient.init (Some "secret").

(** A role record with one field only. *)
Definition partial_role : pyval := PDict [("roleId", PInt 55)].
Definition roles_partial : exn + Response.t :=
  inr (envelope (Some true) (PList [partial_role; role])).
Definition roles_not_records : exn + Response.t :=
  inr (envelope (Some true) (PList [PStr "x"])).
Definition unreachable : exn := PyException "ConnectionError" "connection refused".

Definition partial_record : World := world roles_partial yes yes None get_ok None.
Definition no_records : World := world roles_not_records yes yes None get_ok None.
Definition sign_in_down : World := world roles_ok yes (inl unreachable) None get_ok None.
Definition bark_down : World := world roles_ok yes yes (Some "k") get_ok (Some unreachable).
Definition both_fail_bark_down : World :=
  world roles_ok no no None get_ok (Some unreachable).
Definition qmsg_refuses : World :=
  world roles_ok yes yes (Some "k")
    (inr (PDict [("success", PBool false); ("reason", PStr "quota")])) None.
Definition debug_on : World :=
  {| getenv := fun name => if name =? "DEBUG" then Some "false" else env None name;
     now_month := 7;
     http_post := answers roles_ok yes yes;
     http_get_json := fun _ => get_ok;
     bark := fun _ => None;
     py_str := fun v => match v with PStr s => s | _ => "None" end |}.

(** A client that has been through a failed run already. *)
Definition used : KurobbsClient.t :=
  {| KurobbsClient.token := Some "secret";
     KurobbsClient.result := [("checkin", "签到奖励签到成功")];
     KurobbsClient.exceptions := [KurobbsClientException "社区签到失败"] |}.

End Sample.

(* ================================================================== *)
(** ** How the methods run *)
(* ================================================================== *)

Section Runs.

Variable w : World.

Lemma make_request_run (url : string) (d : payload) (c : KurobbsClient.t) :
  make_request w url d c =
  (c, match http_post w url (headers_of c) d with
      | inl e => ([EvPost url (headers_of c) d], inl e)
      | inr r =>
          ([EvPost url (headers_of c) d; EvLog DEBUG (model_dump_json 2 ["data"] r)],
           inr r)
      end).
Proof.
  unfold make_request, bind, liftIO, post_and_validate, headers_of.
  cbn [get_headers self ret bind io_ret app].
  destruct (http_post w url _ d) as [e | r]; reflexivity.
Qed.

Lemma sign_in_run (c : KurobbsClient.t) :
  sign_in w c =
  (c, match http_post w USER_SIGN_URL (headers_of c) [("gameId", PInt 2)] with
      | inl e => ([EvPost USER_SIGN_URL (headers_of c) [("gameId", PInt 2)]], inl e)
      | inr r =>
          ([EvPost USER_SIGN_URL (headers_of c) [("gameId", PInt 2)];
            EvLog DEBUG (model_dump_json 2 ["data"] r)], inr r)
      end).
Proof. unfold sign_in. apply make_request_run. Qed.

Lemma get_user_game_list_run (g : Z) (c : KurobbsClient.t) :
  get_user_game_list w g c =
  (c, match http_post w FIND_ROLE_LIST_API_URL (headers_of c) [("gameId", PInt g)] with
      | inl e => ([EvPost FIND_ROLE_LIST_API_URL (headers_of c) [("gameId", PInt g)]], inl e)
      | inr r =>
          ([EvPost FIND_ROLE_LIST_API_URL (headers_of c) [("gameId", PInt g)];
            EvLog DEBUG (model_dump_json 2 ["data"] r)], inr (Response.data r))
      end).
Proof.
  unfold get_user_game_list, bind. rewrite make_request_run.
  destruct (http_post w _ _ _) as [e | r]; reflexivity.
Qed.

Lemma first_role_field_run (v : pyval) (key : string) (dflt : pyval) (c : KurobbsClient.t) :
  first_role_field v key dflt c =
  (c, ([], match getitem0 v with
           | inl e => inl e
           | inr role => py_get role key dflt
           end)).
Proof.
  unfold first_role_field, bind, liftIO, io_of_sum.
  destruct (getitem0 v) as [e | role]; reflexivity.
Qed.

Lemma bind_raises {A B} (m : M A) (k : A -> M B) (c c1 : KurobbsClient.t)
    (tr : list event) (e : exn) :
  m c = (c1, (tr, inl e)) -> bind m k c = (c1, (tr, inl e)).
Proof. intros H. unfold bind. rewrite H. reflexivity. Qed.

(** Neither action touches [self]. *)
Lemma sign_in_self (c : KurobbsClient.t) : fst (sign_in w c) = c.
Proof. rewrite sign_in_run. reflexivity. Qed.

Lemma checkin_self (c : KurobbsClient.t) : fst (checkin w c) = c.
Proof.
  unfold checkin, bind. rewrite get_user_game_list_run.
  destruct (http_post w FIND_ROLE_LIST_API_URL _ _) as [e | r]; [reflexivity |].
  rewrite !first_role_field_run.
  destruct (getitem0 (Response.data r)) as [e | role]; [reflexivity |].
  destruct (py_get role "gameId" _); [reflexivity |].
  destruct (py_get role "serverId" _); [reflexivity |].
  destruct (py_get role "roleId" _); [reflexivity |].
  destruct (py_get role "userId" _); [reflexivity |].
  rewrite make_request_run. destruct (http_post w SIGN_URL _ _); reflexivity.
Qed.

(** Both actions read nothing of [self] but the token. *)
Lemma headers_of_token (c c' : KurobbsClient.t) :
  token c = token c' -> headers_of c = headers_of c'.
Proof. intros H. unfold headers_of. cbn. rewrite H. reflexivity. Qed.

Lemma sign_in_token (c c' : KurobbsClient.t) :
  token c = token c' -> snd (sign_in w c) = snd (sign_in w c').
Proof.
  intros H. rewrite !sign_in_run. cbn [snd].
  rewrite (headers_of_token c c' H). reflexivity.
Qed.

End Runs.

Section Orchestration.

Variable w : World.

Lemma append_bang_nonempty (s : string) : (s ++ "!" =? EmptyString) = false.
Proof. destruct s; reflexivity. Qed.

Lemma msg_nonempty (c : KurobbsClient.t) : (msg c =? EmptyString) = false.
Proof. unfold msg. apply append_bang_nonempty. Qed.

Lemma recorded_token n s f r c : token (recorded n s f r c) = token c.
Proof. unfold recorded. destruct (succeeded r); reflexivity. Qed.

Lemma process_sign_action_run (n : string) (act : M Response.t) (s f : string)
    (c c1 : KurobbsClient.t) (tr : list event) (r : Response.t) :
  act c = (c1, (tr, inr r)) ->
  _process_sign_action n act s f c = (recorded n s f r c1, (tr, inr tt)).
Proof.
  intros H. unfold _process_sign_action, bind, recorded, succeeded. rewrite H.
  destruct (truthy_opt_bool (Response.success r)); cbn; rewrite app_nil_r; reflexivity.
Qed.

Lemma process_sign_action_raises (n : string) (act : M Response.t) (s f : string)
    (c c1 : KurobbsClient.t) (tr : list event) (e : exn) :
  act c = (c1, (tr, inl e)) ->
  _process_sign_action n act s f c = (c1, (tr, inl e)).
Proof. intros H. unfold _process_sign_action. apply bind_raises, H. Qed.

Lemma log_run (c : KurobbsClient.t) :
  _log c = (c, ([EvLog INFO (msg c)], raised_by_log c)).
Proof.
  unfold _log, bind, self, liftIO, raised_by_log. cbn [io_ret].
  rewrite msg_nonempty. cbn.
  destruct (exceptions c); reflexivity.
Qed.

Lemma pair_of_parts {A B} (p : A * B) (a : A) (b : B) :
  fst p = a -> snd p = b -> p = (a, b).
Proof. destruct p; cbn; intros -> ->; reflexivity. Qed.

(** [start] when both actions return an envelope. *)
Lemma start_run (c : KurobbsClient.t) (t1 t2 : list event) (r1 r2 : Response.t) :
  snd (checkin w c) = (t1, inr r1) ->
  snd (sign_in w c) = (t2, inr r2) ->
  start w c =
  (after_both r1 r2 c,
   ((t1 ++ t2 ++ [EvLog INFO (msg (after_both r1 r2 c))])%list,
    raised_by_log (after_both r1 r2 c))).
Proof.
  intros H1 H2. unfold start, after_both.
  set (c1 := recorded "checkin" _ _ r1 c).
  assert (E1 : checkin w c = (c, (t1, inr r1)))
    by (apply pair_of_parts; [apply checkin_self | exact H1]).
  assert (E2 : sign_in w c1 = (c1, (t2, inr r2))).
  { apply pair_of_parts; [apply sign_in_self |].
    rewrite <- H2. apply sign_in_token. apply recorded_token. }
  unfold bind at 1.
  rewrite (process_sign_action_run _ _ _ _ _ _ _ _ E1). fold c1.
  unfold bind.
  rewrite (process_sign_action_run _ _ _ _ _ _ _ _ E2).
  rewrite log_run. reflexivity.
Qed.

(** [start] when the first action raises: the second is never called. *)
Lemma start_first_raises (c : KurobbsClient.t) (t1 : list event) (e : exn) :
  snd (checkin w c) = (t1, inl e) ->
  start w c = (c, (t1, inl e)).
Proof.
  intros H1. unfold start.
  apply bind_raises. apply process_sign_action_raises.
  apply pair_of_parts; [apply checkin_self | exact H1].
Qed.

End Orchestration.

(* ================================================================== *)
(** ** What the actions leave in the trace *)
(* ================================================================== *)

Section Traces.

Variable w : World.

Lemma action_events_quiet (tr : list event) :
  Forall action_event tr ->
  barked tr = [] /\ qmsg_requests tr = [] /\
  logged INFO tr = [] /\ logged WARNING tr = [] /\ logged ERROR tr = [].
Proof.
  induction 1 as [| ev tr Hev _ IH]; [repeat split |].
  destruct IH as (Hb & Hq & Hi & Hw & He).
  destruct ev as [u h d | u n | [] s | m | l]; cbn in Hev; try contradiction;
    cbn; auto.
Qed.

Lemma make_request_events (url : string) (d : payload) (c : KurobbsClient.t) :
  Forall action_event (fst (snd (make_request w url d c))).
Proof.
  rewrite make_request_run. cbn [snd].
  destruct (http_post w url _ d); cbn; repeat constructor.
Qed.

Lemma sign_in_events (c : KurobbsClient.t) :
  Forall action_event (fst (snd (sign_in w c))).
Proof. apply make_request_events. Qed.

Lemma sign_in_posts (c : KurobbsClient.t) :
  posted_urls (fst (snd (sign_in w c))) = [USER_SIGN_URL].
Proof.
  rewrite sign_in_run. cbn [snd]. destruct (http_post w _ _ _); reflexivity.
Qed.

(** [checkin], in full: the role-list request, the four field reads, the
    check-in request. *)
Lemma checkin_run (c : KurobbsClient.t) :
  snd (checkin w c) =
  let h := headers_of c in
  let ask := EvPost FIND_ROLE_LIST_API_URL h [("gameId", PInt 3)] in
  match http_post w FIND_ROLE_LIST_API_URL h [("gameId", PInt 3)] with
  | inl e => ([ask], inl e)
  | inr roles =>
      let seen := [ask; EvLog DEBUG (model_dump_json 2 ["data"] roles)] in
      match getitem0 (Response.data roles) with
      | inl e => (seen, inl e)
      | inr role =>
          match py_get role "gameId" (PInt 2), py_get role "serverId" PNone,
                py_get role "roleId" (PInt 0), py_get role "userId" (PInt 0) with
          | inr g, inr s, inr r, inr u =>
              let d := [("gameId", g); ("serverId", s); ("roleId", r); ("userId", u);
                        ("reqMonth", PStr (format_02d (now_month w)))] in
              match http_post w SIGN_URL h d with
              | inl e => ((seen ++ [EvPost SIGN_URL h d])%list, inl e)
              | inr res =>
                  ((seen ++ [EvPost SIGN_URL h d;
                             EvLog DEBUG (model_dump_json 2 ["data"] res)])%list,
                   inr res)
              end
          | inl e, _, _, _ => (seen, inl e)
          | _, inl e, _, _ => (seen, inl e)
          | _, _, inl e, _ => (seen, inl e)
          | _, _, _, inl e => (seen, inl e)
          end
      end
  end.
Proof.
  unfold checkin, bind. rewrite get_user_game_list_run.
  destruct (http_post w FIND_ROLE_LIST_API_URL _ _) as [e | roles]; [reflexivity |].
  rewrite !first_role_field_run.
  destruct (getitem0 (Response.data roles)) as [e | role]; [reflexivity |].
  destruct (py_get role "gameId" _); [reflexivity |].
  destruct (py_get role "serverId" _); [reflexivity |].
  destruct (py_get role "roleId" _); [reflexivity |].
  destruct (py_get role "userId" _); [reflexivity |].
  rewrite make_request_run. destruct (http_post w SIGN_URL _ _); reflexivity.
Qed.

Lemma checkin_events (c : KurobbsClient.t) :
  Forall action_event (fst (snd (checkin w c))).
Proof.
  rewrite checkin_run. cbv zeta.
  destruct (http_post w FIND_ROLE_LIST_API_URL _ _) as [e | roles];
    [cbn; repeat constructor |].
  destruct (getitem0 (Response.data roles)) as [e | role]; [cbn; repeat constructor |].
  destruct (py_get role "gameId" _); [cbn; repeat constructor |].
  destruct (py_get role "serverId" _); [cbn; repeat constructor |].
  destruct (py_get role "roleId" _); [cbn; repeat constructor |].
  destruct (py_get role "userId" _); [cbn; repeat constructor |].
  destruct (http_post w SIGN_URL _ _); cbn; repeat constructor.
Qed.

Lemma checkin_returns_posts (c : KurobbsClient.t) (tr : list event) (r : Response.t) :
  snd (checkin w c) = (tr, inr r) ->
  posted_urls tr = [FIND_ROLE_LIST_API_URL; SIGN_URL].
Proof.
  rewrite checkin_run. cbv zeta.
  destruct (http_post w FIND_ROLE_LIST_API_URL _ _) as [e | roles]; [discriminate |].
  destruct (getitem0 (Response.data roles)) as [e | role]; [discriminate |].
  destruct (py_get role "gameId" _); [discriminate |].
  destruct (py_get role "serverId" _); [discriminate |].
  destruct (py_get role "roleId" _); [discriminate |].
  destruct (py_get role "userId" _); [discriminate |].
  destruct (http_post w SIGN_URL _ _); [discriminate |].
  intros H. injection H as <- _. reflexivity.
Qed.

Lemma action_event_client (ev : event) : action_event ev -> client_event ev.
Proof. destruct ev as [u h d | u n | [] s | m | l]; cbn; auto. Qed.

Lemma client_events_quiet (tr : list event) :
  Forall client_event tr ->
  barked tr = [] /\ qmsg_requests tr = [] /\
  logged WARNING tr = [] /\ logged ERROR tr = [].
Proof.
  induction 1 as [| ev tr Hev _ IH]; [repeat split |].
  destruct IH as (Hb & Hq & Hw & He).
  destruct ev as [u h d | u n | [] s | m | l]; cbn in Hev; try contradiction;
    cbn; auto.
Qed.

Lemma bind_events {A B} (P : event -> Prop) (m : M A) (k : A -> M B)
    (c : KurobbsClient.t) :
  Forall P (fst (snd (m c))) ->
  (forall a c', Forall P (fst (snd (k a c')))) ->
  Forall P (fst (snd (bind m k c))).
Proof.
  intros Hm Hk. unfold bind.
  destruct (m c) as [c1 [tr [e | a]]]; cbn in *; [exact Hm |].
  specialize (Hk a c1). destruct (k a c1) as [c2 [tr' r]]. cbn in *.
  apply Forall_app. split; assumption.
Qed.

Lemma process_sign_action_events (P : event -> Prop) (n : string)
    (act : M Response.t) (s f : string) (c : KurobbsClient.t) :
  Forall P (fst (snd (act c))) ->
  Forall P (fst (snd (_process_sign_action n act s f c))).
Proof.
  intros H. unfold _process_sign_action. apply bind_events; [exact H |].
  intros r c'. destruct (truthy_opt_bool (Response.success r)); constructor.
Qed.

Lemma start_events (c : KurobbsClient.t) :
  Forall client_event (fst (snd (start w c))).
Proof.
  unfold start. apply bind_events.
  - apply process_sign_action_events.
    eapply Forall_impl; [apply action_event_client | apply checkin_events].
  - intros _ c1. apply bind_events.
    + apply process_sign_action_events.
      eapply Forall_impl; [apply action_event_client | apply sign_in_events].
    + intros _ c2. rewrite log_run. cbn. repeat constructor.
Qed.

Lemma posted_urls_app (a b : list event) :
  posted_urls (a ++ b) = (posted_urls a ++ posted_urls b)%list.
Proof. apply flat_map_app. Qed.

Lemma barked_app (a b : list event) : barked (a ++ b) = (barked a ++ barked b)%list.
Proof. apply flat_map_app. Qed.

Lemma qmsg_requests_app (a b : list event) :
  qmsg_requests (a ++ b) = (qmsg_requests a ++ qmsg_requests b)%list.
Proof. apply flat_map_app. Qed.

Lemma logged_app (lvl : level) (a b : list event) :
  logged lvl (a ++ b) = (logged lvl a ++ logged lvl b)%list.
Proof. apply flat_map_app. Qed.

Lemma barked_cons (ev : event) (tr : list event) :
  barked (ev :: tr) = (barked [ev] ++ barked tr)%list.
Proof. apply (barked_app [ev] tr). Qed.

Lemma qmsg_requests_cons (ev : event) (tr : list event) :
  qmsg_requests (ev :: tr) = (qmsg_requests [ev] ++ qmsg_requests tr)%list.
Proof. apply (qmsg_requests_app [ev] tr). Qed.

Lemma logged_cons (lvl : level) (ev : event) (tr : list event) :
  logged lvl (ev :: tr) = (logged lvl [ev] ++ logged lvl tr)%list.
Proof. apply (logged_app lvl [ev] tr). Qed.

End Traces.

(* ================================================================== *)
(** ** How the script runs *)
(* ================================================================== *)

Section ScriptRuns.

Variable w : World.

(** The secondary push never lets an exception out. *)
Lemma send_qmsg_returns (message : string) (qmsg_token : option string) :
  snd (send_qmsg_notification w message qmsg_token) = inr tt.
Proof.
  unfold send_qmsg_notification.
  destruct qmsg_token as [tok |]; [| reflexivity].
  destruct (negb (tok =? EmptyString)); [| reflexivity].
  cbn [io_bind]. destruct (http_get_json w _) as [e | result]; [reflexivity |].
  destruct result; try reflexivity.
  cbn. destruct (truthy _); reflexivity.
Qed.



Lemma send_qmsg_barks (message : string) (qmsg_token : option string) :
  barked (fst (send_qmsg_notification w message qmsg_token)) = [].
Proof.
  unfold send_qmsg_notification.
  destruct qmsg_token as [tok |]; [| reflexivity].
  destruct (negb (tok =? EmptyString)); [| reflexivity].
  cbn [io_bind]. destruct (http_get_json w _) as [e | result]; [reflexivity |].
  destruct result; try reflexivity.
  cbn. destruct (truthy _); reflexivity.
Qed.

Lemma send_qmsg_requests (message : string) (qmsg_token : option string) :
  qmsg_requests (fst (send_qmsg_notification w message qmsg_token)) =
  match qmsg_token with
  | Some k => if k =? EmptyString then [] else [qmsg_url k message]
  | None => []
  end.
Proof.
  unfold send_qmsg_notification.
  destruct qmsg_token as [tok |]; [| reflexivity].
  destruct (tok =? EmptyString); [reflexivity |].
  cbn [negb io_bind]. fold (qmsg_url tok message).
  destruct (http_get_json w _) as [e | result]; [reflexivity |].
  destruct result; try reflexivity.
  cbn. destruct (truthy _); reflexivity.
Qed.

Lemma send_notifications_run (message : string) :
  send_notifications w message =
  match bark w message with
  | Some e => ([EvBark message], inl e)
  | None =>
      (EvBark message
         :: fst (send_qmsg_notification w message (getenv w "QMSG_TOKEN")), inr tt)
  end.
Proof.
  unfold send_notifications, send_bark_notification, io_bind.
  destruct (bark w message); [reflexivity |].
  pose proof (send_qmsg_returns message (getenv w "QMSG_TOKEN")) as H.
  destruct (send_qmsg_notification _ _ _) as [tq rq]. cbn in H. subst rq. reflexivity.
Qed.

Lemma main_body_run (tok : option string) :
  main_body w tok =
  match snd (snd (start w (KurobbsClient.init tok))) with
  | inl e => (fst (snd (start w (KurobbsClient.init tok))), inl e)
  | inr _ =>
      let m := msg (fst (start w (KurobbsClient.init tok))) in
      ((fst (snd (start w (KurobbsClient.init tok))) ++ fst (send_notifications w m))%list,
       snd (send_notifications w m))
  end.
Proof.
  unfold main_body.
  destruct (start w (KurobbsClient.init tok)) as [k' [tr [e | []]]]; [reflexivity |].
  cbn [fst snd io_bind]. rewrite msg_nonempty. cbn [negb].
  destruct (send_notifications w (msg k')); reflexivity.
Qed.

Lemma main_run :
  main w =
  match main_body w (getenv w "TOKEN") with
  | (tr, inr _) => (EvLoggerConfig (log_level_of w) :: tr, Returned)
  | (tr, inl (KurobbsClientException m)) =>
      ((EvLoggerConfig (log_level_of w) :: tr
          ++ [EvLog ERROR m; EvBark "签到任务失败!"])%list,
       match bark w "签到任务失败!" with
       | None => SysExit 1
       | Some e' => Uncaught e'
       end)
  | (tr, inl (PyException cls m)) =>
      ((EvLoggerConfig (log_level_of w) :: tr
          ++ [EvLog ERROR ("An unexpected error occurred: " ++ m)])%list,
       SysExit 1)
  end.
Proof.
  unfold main, log_level_of, configure_logger, io_emit.
  destruct (main_body w (getenv w "TOKEN")) as [tr [[m | cls m] | u]]; cbn;
    try reflexivity.
  destruct (bark w _); reflexivity.
Qed.

(** Whatever happens, the process ends with status 0 or 1: 0 exactly when
    the body of the [try] came to its end. *)
Lemma exit_code_main :
  exit_code (snd (main w)) =
  match snd (main_body w (getenv w "TOKEN")) with inr _ => 0%Z | inl _ => 1%Z end.
Proof.
  rewrite main_run.
  destruct (main_body w (getenv w "TOKEN")) as [tr [[m | cls m] | u]]; cbn;
    try reflexivity.
  destruct (bark w _); reflexivity.
Qed.

End ScriptRuns.

(* ================================================================== *)
(** ** The orchestrator *)
(* ================================================================== *)

Lemma after_both_exceptions (r1 r2 : Response.t) (tok : option string) :
  map str_exn (exceptions (after_both r1 r2 (KurobbsClient.init tok))) = failures_of r1 r2.
Proof.
  unfold after_both, recorded, failures_of.
  destruct (succeeded r1), (succeeded r2); reflexivity.
Qed.

Lemma after_both_msg (r1 r2 : Response.t) (tok : option string) :
  msg (after_both r1 r2 (KurobbsClient.init tok)) =
  match succeeded r1, succeeded r2 with
  | true, true => "签到奖励签到成功, 社区签到成功!"
  | true, false => "签到奖励签到成功!"
  | false, true => "社区签到成功!"
  | false, false => "!"
  end.
Proof.
  unfold after_both, recorded.
  destruct (succeeded r1), (succeeded r2); reflexivity.
Qed.

Lemma after_both_raised (r1 r2 : Response.t) (tok : option string) :
  raised_by_log (after_both r1 r2 (KurobbsClient.init tok)) =
  match failures_of r1 r2 with
  | [] => inr tt
  | fs => inl (KurobbsClientException (join ", " fs))
  end.
Proof.
  unfold after_both, recorded, failures_of, raised_by_log.
  destruct (succeeded r1), (succeeded r2); reflexivity.
Qed.

(** C1. Whatever envelopes the two actions return, [start] runs both of
    them, the second also when the first envelope reports failure: the
    trace of [start] is the trace of [checkin], then the trace of
    [sign_in], then the log line, and it holds the three requests in
    order.  Every failure is recorded, and the error [start] raises is the
    recorded failure messages joined, none left out. *)
Theorem start_attempts_both_and_surfaces_all_failures
    (w : World) (tok : option string) (t1 t2 : list event) (r1 r2 : Response.t) :
  snd (checkin w (KurobbsClient.init tok)) = (t1, inr r1) ->
  snd (sign_in w (KurobbsClient.init tok)) = (t2, inr r2) ->
  let run := start w (KurobbsClient.init tok) in
  fst (snd run) = (t1 ++ t2 ++ [EvLog INFO (msg (fst run))])%list
  /\ posted_urls (fst (snd run)) = [FIND_ROLE_LIST_API_URL; SIGN_URL; USER_SIGN_URL]
  /\ map str_exn (exceptions (fst run)) = failures_of r1 r2
  /\ (succeeded r1 = false -> In "签到奖励签到失败" (failures_of r1 r2))
  /\ (succeeded r2 = false -> In "社区签到失败" (failures_of r1 r2))
  /\ snd (snd run) =
     match failures_of r1 r2 with
     | [] => inr tt
     | fs => inl (KurobbsClientException (join ", " fs))
     end.
Proof.
  intros H1 H2 run. subst run. rewrite (start_run w _ _ _ _ _ H1 H2). cbn [fst snd].
  split; [reflexivity |]. split.
  - rewrite !posted_urls_app.
    rewrite (checkin_returns_posts w _ _ _ H1).
    pose proof (sign_in_posts w (KurobbsClient.init tok)) as P.
    rewrite H2 in P. cbn [fst snd] in P. rewrite P. reflexivity.
  - split; [apply after_both_exceptions |].
    split; [| split].
    + intros E. unfold failures_of. rewrite E. left. reflexivity.
    + intros E. unfold failures_of. rewrite E. apply in_or_app. right. left. reflexivity.
    + apply after_both_raised.
Qed.

(** C2. When both envelopes report success, the aggregate message is the
    two success messages joined by ", " with "!" after them, in call order,
    and [start] raises nothing.  On that path, the primary notifier
    returning, [main] returns (exit code 0), [send_notifications] has run
    once with that message: the primary notifier is invoked once with it,
    and the secondary one once, which requests the push of that message
    when its credential is set. *)
Theorem both_succeed_message_and_exit
    (w : World) (t1 t2 : list event) (r1 r2 : Response.t) :
  let tok := getenv w "TOKEN" in
  let m := "签到奖励签到成功, 社区签到成功!" in
  snd (checkin w (KurobbsClient.init tok)) = (t1, inr r1) ->
  snd (sign_in w (KurobbsClient.init tok)) = (t2, inr r2) ->
  succeeded r1 = true ->
  succeeded r2 = true ->
  (msg (fst (start w (KurobbsClient.init tok))) = m
   /\ snd (snd (start w (KurobbsClient.init tok))) = inr tt)
  /\ (bark w m = None ->
      snd (main w) = Returned
      /\ exit_code (snd (main w)) = 0%Z
      /\ fst (main w) =
         (EvLoggerConfig (log_level_of w) :: t1 ++ t2 ++ [EvLog INFO m]
            ++ EvBark m :: fst (send_qmsg_notification w m (getenv w "QMSG_TOKEN")))%list
      /\ barked (fst (main w)) = [m]
      /\ qmsg_requests (fst (main w)) =
         match getenv w "QMSG_TOKEN" with
         | Some k => if k =? EmptyString then [] else [qmsg_url k m]
         | None => []
         end).
Proof.
  intros tok m H1 H2 S1 S2.
  assert (Hrun : start w (KurobbsClient.init tok) =
                 (after_both r1 r2 (KurobbsClient.init tok),
                  ((t1 ++ t2 ++ [EvLog INFO m])%list, inr tt))).
  { rewrite (start_run w _ _ _ _ _ H1 H2).
    rewrite after_both_msg, after_both_raised. unfold failures_of.
    rewrite S1, S2. reflexivity. }
  assert (Hmsg : msg (after_both r1 r2 (KurobbsClient.init tok)) = m)
    by (rewrite after_both_msg, S1, S2; reflexivity).
  split.
  - rewrite Hrun. cbn [fst snd]. split; [exact Hmsg | reflexivity].
  - intros Hbark.
    assert (Hmain : main w =
              ((EvLoggerConfig (log_level_of w) :: t1 ++ t2 ++ [EvLog INFO m]
                  ++ EvBark m :: fst (send_qmsg_notification w m (getenv w "QMSG_TOKEN")))%list,
               Returned)).
    { rewrite main_run, main_body_run. fold tok. rewrite Hrun. cbn [fst snd].
      rewrite Hmsg, send_notifications_run, Hbark. cbn [fst snd].
      rewrite <- !app_assoc. reflexivity. }
    rewrite Hmain. cbn [fst snd].
    destruct (action_events_quiet t1) as (B1 & Q1 & _).
    { pose proof (checkin_events w (KurobbsClient.init tok)) as E.
      rewrite H1 in E. exact E. }
    destruct (action_events_quiet t2) as (B2 & Q2 & _).
    { pose proof (sign_in_events w (KurobbsClient.init tok)) as E.
      rewrite H2 in E. exact E. }
    repeat split.
    + rewrite barked_cons, !barked_app, (barked_cons (EvBark m)), B1, B2,
        send_qmsg_barks.
      reflexivity.
    + rewrite qmsg_requests_cons, !qmsg_requests_app,
        (qmsg_requests_cons (EvBark m)), Q1, Q2,
        send_qmsg_requests.
      reflexivity.
Qed.

(** C3. With envelopes from both actions: when exactly one reports
    failure, the error [start] raises carries that action's failure message
    and nothing else, and the info line that was logged is the other
    action's success message (with its "!"); when both report failure, the
    error text is the two failure messages joined by ", " in call order. *)
Theorem failures_joined_and_success_still_logged
    (w : World) (tok : option string) (t1 t2 : list event) (r1 r2 : Response.t) :
  snd (checkin w (KurobbsClient.init tok)) = (t1, inr r1) ->
  snd (sign_in w (KurobbsClient.init tok)) = (t2, inr r2) ->
  let run := start w (KurobbsClient.init tok) in
  snd (snd run) =
    match succeeded r1, succeeded r2 with
    | true, true => inr tt
    | false, true => inl (KurobbsClientException "签到奖励签到失败")
    | true, false => inl (KurobbsClientException "社区签到失败")
    | false, false => inl (KurobbsClientException "签到奖励签到失败, 社区签到失败")
    end
  /\ logged INFO (fst (snd run)) =
    [ match succeeded r1, succeeded r2 with
      | true, true => "签到奖励签到成功, 社区签到成功!"
      | false, true => "社区签到成功!"
      | true, false => "签到奖励签到成功!"
      | false, false => "!"
      end ].
Proof.
  intros H1 H2 run. subst run. rewrite (start_run w _ _ _ _ _ H1 H2). cbn [fst snd].
  split.
  - rewrite after_both_raised. unfold failures_of.
    destruct (succeeded r1), (succeeded r2); reflexivity.
  - destruct (action_events_quiet t1) as (_ & _ & I1 & _).
    { pose proof (checkin_events w (KurobbsClient.init tok)) as E.
      rewrite H1 in E. exact E. }
    destruct (action_events_quiet t2) as (_ & _ & I2 & _).
    { pose proof (sign_in_events w (KurobbsClient.init tok)) as E.
      rewrite H2 in E. exact E. }
    rewrite !logged_app, I1, I2, after_both_msg. cbn.
    destruct (succeeded r1), (succeeded r2); reflexivity.
Qed.

(* ================================================================== *)
(** ** Exit codes and notifications *)
(* ================================================================== *)

Section ExitPaths.

Variable w : World.

Let tok := getenv w "TOKEN".
Let cfg := EvLoggerConfig (log_level_of w).

(** [main] when [start] raises the aggregate failure. *)
Lemma main_on_aggregate_failure (tr : list event) (m : string) :
  snd (start w (KurobbsClient.init tok)) = (tr, inl (KurobbsClientException m)) ->
  exit_code (snd (main w)) = 1%Z
  /\ fst (main w) = (cfg :: tr ++ [EvLog ERROR m; EvBark "签到任务失败!"])%list
  /\ barked (fst (main w)) = ["签到任务失败!"]
  /\ qmsg_requests (fst (main w)) = []
  /\ logged WARNING (fst (main w)) = []
  /\ logged ERROR (fst (main w)) = [m].
Proof.
  intros H.
  assert (Hb : main_body w tok = (tr, inl (KurobbsClientException m))).
  { rewrite main_body_run, H. cbn [fst snd]. reflexivity. }
  destruct (client_events_quiet tr) as (B & Q & W & E).
  { pose proof (start_events w (KurobbsClient.init tok)) as F.
    rewrite H in F. exact F. }
  rewrite main_run. fold tok. rewrite Hb. cbn [fst snd]. fold cfg.
  split; [destruct (bark w _); reflexivity |].
  split; [reflexivity |].
  split; [rewrite barked_cons, barked_app, B; reflexivity |].
  split; [rewrite qmsg_requests_cons, qmsg_requests_app, Q; reflexivity |].
  split; [rewrite logged_cons, logged_app, W; reflexivity |].
  rewrite logged_cons, logged_app, E. reflexivity.
Qed.

(** [main] when [start] raises anything else. *)
Lemma main_on_unexpected_error (tr : list event) (cls m : string) :
  snd (start w (KurobbsClient.init tok)) = (tr, inl (PyException cls m)) ->
  snd (main w) = SysExit 1
  /\ exit_code (snd (main w)) = 1%Z
  /\ fst (main w) =
     (cfg :: tr ++ [EvLog ERROR ("An unexpected error occurred: " ++ m)])%list
  /\ barked (fst (main w)) = []
  /\ qmsg_requests (fst (main w)) = [].
Proof.
  intros H.
  assert (Hb : main_body w tok = (tr, inl (PyException cls m))).
  { rewrite main_body_run, H. cbn [fst snd]. reflexivity. }
  destruct (client_events_quiet tr) as (B & Q & W & E).
  { pose proof (start_events w (KurobbsClient.init tok)) as F.
    rewrite H in F. exact F. }
  rewrite main_run. fold tok. rewrite Hb. cbn [fst snd]. fold cfg.
  split; [reflexivity |]. split; [reflexivity |]. split; [reflexivity |].
  split; [rewrite barked_cons, barked_app, B; reflexivity |].
  rewrite qmsg_requests_cons, qmsg_requests_app, Q. reflexivity.
Qed.

End ExitPaths.

(** C4. The process ends with status 0 when the body of [main] comes to
    its end and with 1 whenever an exception leaves it, the aggregate
    failure or any other.  When [start] raises the aggregate failure, the
    primary notifier is invoked with "签到任务失败!" and with nothing else,
    and the secondary channel does nothing at all (no request, no line of
    its own).  When [start] raises any other exception, the error is logged
    and no notifier is invoked.  In general the handler of the aggregate
    failure adds to the trace one error line and the one call of the primary
    notifier, and the handler of any other exception one error line only. *)
Theorem exit_codes_and_failure_notifications (w : World) :
  let tok := getenv w "TOKEN" in
  let cfg := EvLoggerConfig (log_level_of w) in
  exit_code (snd (main w)) =
    match snd (main_body w tok) with inr _ => 0%Z | inl _ => 1%Z end
  /\ fst (main w) =
     match main_body w tok with
     | (tr, inr _) => cfg :: tr
     | (tr, inl (KurobbsClientException m)) =>
         (cfg :: tr ++ [EvLog ERROR m; EvBark "签到任务失败!"])%list
     | (tr, inl (PyException _ m)) =>
         (cfg :: tr ++ [EvLog ERROR ("An unexpected error occurred: " ++ m)])%list
     end
  /\ (forall tr m,
        snd (start w (KurobbsClient.init tok)) = (tr, inl (KurobbsClientException m)) ->
        exit_code (snd (main w)) = 1%Z
        /\ fst (main w) = (cfg :: tr ++ [EvLog ERROR m; EvBark "签到任务失败!"])%list
        /\ barked (fst (main w)) = ["签到任务失败!"]
        /\ qmsg_requests (fst (main w)) = []
        /\ logged WARNING (fst (main w)) = []
        /\ logged ERROR (fst (main w)) = [m])
  /\ (forall tr cls m,
        snd (start w (KurobbsClient.init tok)) = (tr, inl (PyException cls m)) ->
        snd (main w) = SysExit 1
        /\ exit_code (snd (main w)) = 1%Z
        /\ fst (main w) =
           (cfg :: tr ++ [EvLog ERROR ("An unexpected error occurred: " ++ m)])%list
        /\ barked (fst (main w)) = []
        /\ qmsg_requests (fst (main w)) = []).
Proof.
  intros tok cfg. split; [apply exit_code_main |].
  split.
  { rewrite main_run. fold tok cfg.
    destruct (main_body w tok) as [tr [[m | cls m] | u]]; reflexivity. }
  split.
  - intros tr m. apply main_on_aggregate_failure.
  - intros tr cls m. apply main_on_unexpected_error.
Qed.

(* ================================================================== *)
(** ** The check-in payload *)
(* ================================================================== *)

Lemma format_02d_month (m : Z) :
  (1 <= m <= 12)%Z ->
  String.length (format_02d m) = 2
  /\ format_02d m = if (m <? 10)%Z then "0" ++ str_int m else str_int m.
Proof.
  intros H.
  assert (C : (m = 1 \/ m = 2 \/ m = 3 \/ m = 4 \/ m = 5 \/ m = 6 \/ m = 7
               \/ m = 8 \/ m = 9 \/ m = 10 \/ m = 11 \/ m = 12)%Z) by lia.
  repeat (destruct C as [-> | C]; [split; reflexivity |]).
  subst m. split; reflexivity.
Qed.

(** C5. When the role list is not empty and its first record has the
    fields gameId, serverId, roleId and userId, [checkin] posts to the
    check-in endpoint exactly those four values and [reqMonth], the
    current month written with two digits, zero-padded. *)
Theorem checkin_payload
    (w : World) (tok : option string) (tr : list event)
    (fields : list (string * pyval)) (rest : list pyval) (g s r u : pyval) :
  snd (get_user_game_list w 3 (KurobbsClient.init tok))
    = (tr, inr (PList (PDict fields :: rest))) ->
  assoc "gameId" fields = Some g ->
  assoc "serverId" fields = Some s ->
  assoc "roleId" fields = Some r ->
  assoc "userId" fields = Some u ->
  (1 <= now_month w <= 12)%Z ->
  posted (fst (snd (checkin w (KurobbsClient.init tok)))) =
    [ (FIND_ROLE_LIST_API_URL, [("gameId", PInt 3)]);
      (SIGN_URL, [ ("gameId", g); ("serverId", s); ("roleId", r); ("userId", u);
                   ("reqMonth", PStr (format_02d (now_month w))) ]) ]
  /\ String.length (format_02d (now_month w)) = 2
  /\ format_02d (now_month w) =
     if (now_month w <? 10)%Z then "0" ++ str_int (now_month w)
     else str_int (now_month w).
Proof.
  intros Hl Hg Hs Hr Hu Hm. split; [| apply format_02d_month, Hm].
  rewrite get_user_game_list_run in Hl. cbn [snd] in Hl.
  rewrite checkin_run. cbv zeta.
  destruct (http_post w FIND_ROLE_LIST_API_URL _ _) as [e | roles]; [discriminate |].
  injection Hl as _ Hd. rewrite Hd. cbn [getitem0 py_get].
  rewrite Hg, Hs, Hr, Hu.
  destruct (http_post w SIGN_URL _ _); reflexivity.
Qed.

(** C6, as the code has it.  When the role list is empty, [checkin] raises
    [IndexError] from the index into the empty list, after the role-list
    request alone; [start] lets it through without recording a failure and
    without attempting [sign_in]; [main] logs it as an unexpected error,
    invokes no notifier and exits with status 1. *)
Theorem empty_role_list_raises_index_error (w : World) (tr : list event) :
  let tok := getenv w "TOKEN" in
  let err := PyException "IndexError" "list index out of range" in
  snd (get_user_game_list w 3 (KurobbsClient.init tok)) = (tr, inr (PList [])) ->
  snd (checkin w (KurobbsClient.init tok)) = (tr, inl err)
  /\ posted_urls tr = [FIND_ROLE_LIST_API_URL]
  /\ start w (KurobbsClient.init tok) = (KurobbsClient.init tok, (tr, inl err))
  /\ main w =
     ((EvLoggerConfig (log_level_of w) :: tr
         ++ [EvLog ERROR "An unexpected error occurred: list index out of range"])%list,
      SysExit 1)
  /\ barked (fst (main w)) = []
  /\ exit_code (snd (main w)) = 1%Z.
Proof.
  intros tok err Hl.
  assert (Hc : snd (checkin w (KurobbsClient.init tok)) = (tr, inl err)).
  { rewrite get_user_game_list_run in Hl. cbn [snd] in Hl.
    rewrite checkin_run. cbv zeta.
    destruct (http_post w FIND_ROLE_LIST_API_URL _ _) as [e | roles]; [discriminate |].
    injection Hl as Ht Hd. subst tr. rewrite Hd. reflexivity. }
  assert (Hp : posted_urls tr = [FIND_ROLE_LIST_API_URL]).
  { rewrite get_user_game_list_run in Hl. cbn [snd] in Hl.
    destruct (http_post w FIND_ROLE_LIST_API_URL _ _) as [e | roles]; [discriminate |].
    injection Hl as Ht _. subst tr. reflexivity. }
  pose proof (start_first_raises w _ _ _ Hc) as Hs.
  destruct (main_on_unexpected_error w tr "IndexError" "list index out of range")
    as (Ho & He & Ht & Hb & _).
  { fold tok. rewrite Hs. reflexivity. }
  repeat split; try assumption.
  apply pair_of_parts; assumption.
Qed.

(* ================================================================== *)
(** ** The secondary push *)
(* ================================================================== *)


(* ================================================================== *)
(** ** Recording an outcome *)
(* ================================================================== *)

(** C8. An envelope without the [success] field is recorded as a failure,
    exactly as one with [success = false]: the failure message is appended
    to the exceptions, no success message is stored, and
    [_process_sign_action] leaves [self] and the trace the same in the two
    cases. *)
Theorem absent_success_is_failure
    (n s f : string) (act act' : M Response.t) (c c1 : KurobbsClient.t)
    (tr : list event) (r r' : Response.t) :
  act c = (c1, (tr, inr r)) ->
  act' c = (c1, (tr, inr r')) ->
  Response.success r = None ->
  Response.success r' = Some false ->
  _process_sign_action n act s f c =
    ({| token := token c1;
        result := result c1;
        exceptions := (exceptions c1 ++ [KurobbsClientException f])%list |},
     (tr, inr tt))
  /\ _process_sign_action n act s f c = _process_sign_action n act' s f c.
Proof.
  intros Ha Ha' Hr Hr'.
  rewrite (process_sign_action_run n act s f c c1 tr r Ha).
  rewrite (process_sign_action_run n act' s f c c1 tr r' Ha').
  unfold recorded, succeeded. rewrite Hr, Hr'. split; reflexivity.
Qed.

(** C9. [msg] is the recorded success messages joined by ", " with "!"
    after them, so it is never the empty string and is "!" when nothing
    succeeded; [_log] therefore always writes its info line. *)
Theorem msg_never_empty (c : KurobbsClient.t) :
  msg c = join ", " (values (result c)) ++ "!"
  /\ msg c <> EmptyString
  /\ msg {| token := token c; result := []; exceptions := exceptions c |} = "!"
  /\ fst (snd (_log c)) = [EvLog INFO (msg c)]
  /\ logged INFO (fst (snd (_log c))) = [msg c].
Proof.
  split; [reflexivity |].
  split.
  - intros H. pose proof (msg_nonempty c) as N. rewrite H in N. discriminate.
  - split; [reflexivity |]. rewrite log_run. split; reflexivity.
Qed.

(* ================================================================== *)
(** ** The debug trace *)
(* ================================================================== *)

Lemma dump_without_data (r : Response.t) :
  model_dump_json 2 ["data"] r =
  json_dump 2 0
    (PDict [ ("code", PInt (Response.code r));
             ("msg", PStr (Response.msg r));
             ("success", of_opt_bool (Response.success r)) ]).
Proof. reflexivity. Qed.

(** C10. The debug line [make_request] writes leaves [data] out: envelopes
    that agree on [code], [msg] and [success] give the same line, whatever
    their [data], and two runs of [make_request] that receive such
    envelopes leave the same debug output and the same trace. *)
Theorem debug_trace_excludes_data
    (w1 w2 : World) (url : string) (d : payload) (c : KurobbsClient.t)
    (r1 r2 : Response.t) :
  Response.code r1 = Response.code r2 ->
  Response.msg r1 = Response.msg r2 ->
  Response.success r1 = Response.success r2 ->
  http_post w1 url (headers_of c) d = inr r1 ->
  http_post w2 url (headers_of c) d = inr r2 ->
  model_dump_json 2 ["data"] r1 = model_dump_json 2 ["data"] r2
  /\ logged DEBUG (fst (snd (make_request w1 url d c)))
     = logged DEBUG (fst (snd (make_request w2 url d c)))
  /\ logged DEBUG (fst (snd (make_request w1 url d c))) = [model_dump_json 2 ["data"] r1]
  /\ fst (snd (make_request w1 url d c)) = fst (snd (make_request w2 url d c)).
Proof.
  intros Hc Hm Hs H1 H2.
  assert (E : model_dump_json 2 ["data"] r1 = model_dump_json 2 ["data"] r2).
  { rewrite !dump_without_data, Hc, Hm, Hs. reflexivity. }
  rewrite !make_request_run, H1, H2. cbn [fst snd]. rewrite E.
  repeat split; reflexivity.
Qed.

(** With [data] not excluded the dump does depend on it. *)
Example dump_with_data_differs :
  model_dump_json 2 [] (Sample.envelope (Some true) (PList []))
  <> model_dump_json 2 [] (Sample.envelope (Some true) PNone).
Proof. vm_compute. discriminate. Qed.

(** A check-in envelope without [success] makes the run an aggregate
    failure: status 1, the fixed message to the primary notifier. *)
Example unset_success_run :
  logged ERROR (fst (main Sample.first_unset)) = ["签到奖励签到失败"]
  /\ logged INFO (fst (main Sample.first_unset)) = ["社区签到成功!"]
  /\ barked (fst (main Sample.first_unset)) = ["签到任务失败!"]
  /\ snd (main Sample.first_unset) = SysExit 1.
Proof. repeat split; reflexivity. Qed.

(* ================================================================== *)
(** ** The empty role list, on a concrete run *)
(* ================================================================== *)

(** C6 fails on the code.  On a run whose role-list lookup returns the empty
    list, [checkin] ends in the [IndexError] of the unguarded index, which
    is no [NoRoleFound] error; the failure is not recorded among the
    exceptions of the client and [sign_in] is never attempted. *)
Lemma empty_role_list_is_no_NoRoleFound :
  snd (snd (get_user_game_list Sample.no_roles 3 Sample.fresh)) = inr (PList [])
  /\ snd (snd (checkin Sample.no_roles Sample.fresh))
     = inl (PyException "IndexError" "list index out of range")
  /\ ~ (exists m, snd (snd (checkin Sample.no_roles Sample.fresh))
                  = inl (PyException "NoRoleFound" m))
  /\ exceptions (fst (start Sample.no_roles Sample.fresh)) = []
  /\ posted_urls (fst (snd (start Sample.no_roles Sample.fresh)))
     = [FIND_ROLE_LIST_API_URL].
Proof.
  split; [reflexivity |]. split; [reflexivity |]. split.
  - intros [m H]. vm_compute in H. discriminate H.
  - split; reflexivity.
Qed.

(* ================================================================== *)
(** ** The theorems on the sample runs *)
(* ================================================================== *)

Lemma start_attempts_both_witness :
  succeeded (Sample.envelope (Some false) PNone) = false
  /\ posted_urls (fst (snd (start Sample.first_fails Sample.fresh)))
     = [FIND_ROLE_LIST_API_URL; SIGN_URL; USER_SIGN_URL]
  /\ snd (snd (start Sample.first_fails Sample.fresh))
     = inl (KurobbsClientException "签到奖励签到失败").
Proof.
  destruct (start_attempts_both_and_surfaces_all_failures
              Sample.first_fails (Some "secret") _ _ _ _ eq_refl eq_refl)
    as (_ & P & _ & _ & _ & R).
  split; [reflexivity |]. split; [exact P | exact R].
Defined.

Lemma both_succeed_witness :
  msg (fst (start Sample.all_good Sample.fresh)) = "签到奖励签到成功, 社区签到成功!"
  /\ exit_code (snd (main Sample.all_good)) = 0%Z
  /\ barked (fst (main Sample.all_good)) = ["签到奖励签到成功, 社区签到成功!"].
Proof.
  destruct (both_succeed_message_and_exit Sample.all_good _ _ _ _
              eq_refl eq_refl eq_refl eq_refl) as ((M & _) & H).
  destruct (H eq_refl) as (_ & E & _ & B & _).
  split; [exact M |]. split; [exact E | exact B].
Defined.

Lemma failures_joined_witness :
  (snd (snd (start Sample.first_fails Sample.fresh))
     = inl (KurobbsClientException "签到奖励签到失败")
   /\ logged INFO (fst (snd (start Sample.first_fails Sample.fresh))) = ["社区签到成功!"])
  /\ (snd (snd (start Sample.second_fails Sample.fresh))
        = inl (KurobbsClientException "社区签到失败")
      /\ logged INFO (fst (snd (start Sample.second_fails Sample.fresh)))
         = ["签到奖励签到成功!"])
  /\ snd (snd (start Sample.both_fail Sample.fresh))
     = inl (KurobbsClientException "签到奖励签到失败, 社区签到失败").
Proof.
  split; [| split].
  - exact (failures_joined_and_success_still_logged
             Sample.first_fails (Some "secret") _ _ _ _ eq_refl eq_refl).
  - exact (failures_joined_and_success_still_logged
             Sample.second_fails (Some "secret") _ _ _ _ eq_refl eq_refl).
  - exact (proj1 (failures_joined_and_success_still_logged
                    Sample.both_fail (Some "secret") _ _ _ _ eq_refl eq_refl)).
Defined.

Lemma exit_codes_witness :
  (exit_code (snd (main Sample.all_good)) = 0%Z)
  /\ (exit_code (snd (main Sample.both_fail)) = 1%Z
      /\ barked (fst (main Sample.both_fail)) = ["签到任务失败!"]
      /\ qmsg_requests (fst (main Sample.both_fail)) = [])
  /\ (exit_code (snd (main Sample.network_down)) = 1%Z
      /\ barked (fst (main Sample.network_down)) = []).
Proof.
  split; [| split].
  - exact (proj1 (exit_codes_and_failure_notifications Sample.all_good)).
  - destruct (proj1 (proj2 (proj2 (exit_codes_and_failure_notifications Sample.both_fail)))
                _ _ eq_refl) as (E & _ & B & Q & _).
    split; [exact E |]. split; [exact B | exact Q].
  - destruct (proj2 (proj2 (proj2 (exit_codes_and_failure_notifications
                                     Sample.network_down)))
                _ _ _ eq_refl) as (_ & E & _ & B & _).
    split; [exact E | exact B].
Defined.

(** The example of the specification: the role list
    [[{gameId:2, serverId:101, roleId:55, userId:9}]] in month 7. *)
Lemma checkin_payload_witness :
  (1 <= now_month Sample.all_good <= 12)%Z
  /\ posted (fst (snd (checkin Sample.all_good Sample.fresh))) =
     [ (FIND_ROLE_LIST_API_URL, [("gameId", PInt 3)]);
       (SIGN_URL, [ ("gameId", PInt 2); ("serverId", PInt 101); ("roleId", PInt 55);
                    ("userId", PInt 9); ("reqMonth", PStr "07") ]) ].
Proof.
  assert (Hm : (1 <= now_month Sample.all_good <= 12)%Z) by (cbn; lia).
  split; [exact Hm |].
  exact (proj1 (checkin_payload Sample.all_good (Some "secret") _ _ _ _ _ _ _
                  eq_refl eq_refl eq_refl eq_refl eq_refl Hm)).
Defined.

Lemma empty_role_list_witness :
  snd (snd (get_user_game_list Sample.no_roles 3 Sample.fresh)) = inr (PList [])
  /\ snd (snd (checkin Sample.no_roles Sample.fresh))
     = inl (PyException "IndexError" "list index out of range")
  /\ snd (main Sample.no_roles) = SysExit 1
  /\ barked (fst (main Sample.no_roles)) = [].
Proof.
  destruct (empty_role_list_raises_index_error Sample.no_roles _ eq_refl)
    as (C & _ & _ & M & B & _).
  split; [reflexivity |].
  split; [exact (f_equal snd C) |].
  split; [exact (f_equal snd M) | exact B].
Defined.


Lemma absent_success_witness :
  let answer (r : Response.t) : M Response.t := fun c => (c, ([], inr r)) in
  _process_sign_action "checkin" (answer (Sample.envelope None PNone))
    "签到奖励签到成功" "签到奖励签到失败" Sample.fresh
  = ({| token := Some "secret"; result := [];
        exceptions := [KurobbsClientException "签到奖励签到失败"] |}, ([], inr tt)).
Proof.
  intros answer.
  exact (proj1 (absent_success_is_failure "checkin" "签到奖励签到成功" "签到奖励签到失败"
                  (answer (Sample.envelope None PNone))
                  (answer (Sample.envelope (Some false) PNone))
                  Sample.fresh Sample.fresh [] _ _ eq_refl eq_refl eq_refl eq_refl)).
Defined.

Lemma debug_trace_witness :
  Response.data (Sample.envelope (Some true) (PList [Sample.role]))
    <> Response.data (Sample.envelope (Some true) (PList []))
  /\ logged DEBUG (fst (snd (make_request Sample.all_good FIND_ROLE_LIST_API_URL
                               [("gameId", PInt 3)] Sample.fresh)))
     = logged DEBUG (fst (snd (make_request Sample.no_roles FIND_ROLE_LIST_API_URL
                                 [("gameId", PInt 3)] Sample.fresh))).
Proof.
  split; [discriminate |].
  exact (proj1 (proj2 (debug_trace_excludes_data Sample.all_good Sample.no_roles
                         FIND_ROLE_LIST_API_URL [("gameId", PInt 3)] Sample.fresh
                         (Sample.envelope (Some true) (PList [Sample.role]))
                         (Sample.envelope (Some true) (PList []))
                         eq_refl eq_refl eq_refl eq_refl eq_refl))).
Defined.

(* ================================================================== *)
(** ** Beyond the two envelopes: runs that break off *)
(* ================================================================== *)

Section BrokenRuns.

Variable w : World.

(** [start] when the first action returns and the second raises: the first
    outcome is recorded, [_log] is never reached. *)
Lemma start_second_raises (c : KurobbsClient.t) (t1 t2 : list event)
    (r1 : Response.t) (e : exn) :
  snd (checkin w c) = (t1, inr r1) ->
  snd (sign_in w c) = (t2, inl e) ->
  start w c =
  (recorded "checkin" "签到奖励签到成功" "签到奖励签到失败" r1 c, ((t1 ++ t2)%list, inl e)).
Proof.
  intros H1 H2. unfold start.
  set (c1 := recorded "checkin" _ _ r1 c).
  assert (E1 : checkin w c = (c, (t1, inr r1)))
    by (apply pair_of_parts; [apply checkin_self | exact H1]).
  assert (E2 : sign_in w c1 = (c1, (t2, inl e))).
  { apply pair_of_parts; [apply sign_in_self |].
    rewrite <- H2. apply sign_in_token. apply recorded_token. }
  unfold bind at 1.
  rewrite (process_sign_action_run _ _ _ _ _ _ _ _ E1). fold c1.
  rewrite (bind_raises _ _ _ _ _ _
             (process_sign_action_raises _ _ _ _ _ _ _ _ E2)).
  reflexivity.
Qed.

(** The requests of [checkin]: the role list, then at most the check-in. *)
Lemma checkin_posts (c : KurobbsClient.t) :
  posted_urls (fst (snd (checkin w c))) = [FIND_ROLE_LIST_API_URL]
  \/ posted_urls (fst (snd (checkin w c))) = [FIND_ROLE_LIST_API_URL; SIGN_URL].
Proof.
  rewrite checkin_run. cbv zeta.
  destruct (http_post w FIND_ROLE_LIST_API_URL _ _) as [e | roles]; [left; reflexivity |].
  destruct (getitem0 (Response.data roles)) as [e | role]; [left; reflexivity |].
  destruct (py_get role "gameId" _); [left; reflexivity |].
  destruct (py_get role "serverId" _); [left; reflexivity |].
  destruct (py_get role "roleId" _); [left; reflexivity |].
  destruct (py_get role "userId" _); [left; reflexivity |].
  destruct (http_post w SIGN_URL _ _); right; reflexivity.
Qed.

Lemma checkin_headers (c : KurobbsClient.t) :
  Forall (sent_with (headers_of c)) (fst (snd (checkin w c))).
Proof.
  rewrite checkin_run. cbv zeta.
  destruct (http_post w FIND_ROLE_LIST_API_URL _ _) as [e | roles];
    [cbn; repeat constructor |].
  destruct (getitem0 (Response.data roles)) as [e | role]; [cbn; repeat constructor |].
  destruct (py_get role "gameId" _); [cbn; repeat constructor |].
  destruct (py_get role "serverId" _); [cbn; repeat constructor |].
  destruct (py_get role "roleId" _); [cbn; repeat constructor |].
  destruct (py_get role "userId" _); [cbn; repeat constructor |].
  destruct (http_post w SIGN_URL _ _); cbn; repeat constructor.
Qed.

Lemma sign_in_headers (c : KurobbsClient.t) :
  Forall (sent_with (headers_of c)) (fst (snd (sign_in w c))).
Proof.
  rewrite sign_in_run. cbn [snd].
  destruct (http_post w USER_SIGN_URL _ _); cbn; repeat constructor.
Qed.

(** A bind under a property of [self] that its first method keeps. *)
Lemma bind_events_keeping {A B} (I : KurobbsClient.t -> Prop) (P : event -> Prop)
    (m : M A) (k : A -> M B) (c : KurobbsClient.t) :
  Forall P (fst (snd (m c))) ->
  I (fst (m c)) ->
  (forall a c', I c' -> Forall P (fst (snd (k a c')))) ->
  Forall P (fst (snd (bind m k c))).
Proof.
  intros Hm Hi Hk. unfold bind.
  destruct (m c) as [c1 [tr [e | a]]]; cbn in *; [exact Hm |].
  specialize (Hk a c1 Hi). destruct (k a c1) as [c2 [tr' r]]. cbn in *.
  apply Forall_app. split; assumption.
Qed.

Lemma process_sign_action_token (n : string) (act : M Response.t) (s f : string)
    (c : KurobbsClient.t) :
  fst (act c) = c ->
  token (fst (_process_sign_action n act s f c)) = token c.
Proof.
  intros H. unfold _process_sign_action, bind.
  destruct (act c) as [c1 [tr [e | r]]]; cbn in H; subst c1; [reflexivity |].
  destruct (truthy_opt_bool (Response.success r)); reflexivity.
Qed.

Lemma start_headers (c : KurobbsClient.t) :
  Forall (sent_with (headers_of c)) (fst (snd (start w c))).
Proof.
  unfold start.
  apply (bind_events_keeping (fun c' => token c' = token c)).
  - apply process_sign_action_events, checkin_headers.
  - apply process_sign_action_token, checkin_self.
  - intros _ c1 Hc1.
    apply (bind_events_keeping (fun _ => True)); [| exact I |].
    + apply process_sign_action_events.
      rewrite <- (headers_of_token c1 c Hc1). apply sign_in_headers.
    + intros _ c2 _. rewrite log_run. cbn. repeat constructor.
Qed.

Lemma send_qmsg_events (message : string) (qmsg_token : option string) :
  Forall notifier_event (fst (send_qmsg_notification w message qmsg_token)).
Proof.
  unfold send_qmsg_notification.
  destruct qmsg_token as [tok |]; [| repeat constructor].
  destruct (negb (tok =? EmptyString)); [| repeat constructor].
  cbn [io_bind]. destruct (http_get_json w _) as [e | result]; [repeat constructor |].
  destruct result; try (repeat constructor).
  cbn. destruct (truthy _); repeat constructor.
Qed.

(** The trace of [main]: the logger configuration, the trace of [start],
    then log lines and notifier calls only. *)
Lemma main_trace_shape :
  exists extra,
    fst (main w) =
      (EvLoggerConfig (log_level_of w)
         :: fst (snd (start w (KurobbsClient.init (getenv w "TOKEN")))) ++ extra)%list
    /\ Forall notifier_event extra.
Proof.
  rewrite main_run, main_body_run.
  destruct (start w (KurobbsClient.init (getenv w "TOKEN"))) as [k' [tr [e | u]]];
    cbn [fst snd].
  - destruct e as [m | cls m]; cbn [fst].
    + eexists. split; [reflexivity | repeat constructor].
    + eexists. split; [reflexivity | repeat constructor].
  - rewrite send_notifications_run.
    destruct (bark w (msg k')) as [e |]; cbn [fst snd].
    + destruct e as [m | cls m]; cbn [fst].
      * exists ([EvBark (msg k')] ++ [EvLog ERROR m; EvBark "签到任务失败!"])%list.
        split; [rewrite <- app_assoc; reflexivity | repeat constructor].
      * exists ([EvBark (msg k')]
                  ++ [EvLog ERROR ("An unexpected error occurred: " ++ m)])%list.
        split; [rewrite <- app_assoc; reflexivity | repeat constructor].
    + eexists. split; [reflexivity |].
      constructor; [exact I | apply send_qmsg_events].
Qed.

End BrokenRuns.

Section MoreTraces.

Variable w : World.

Lemma notifier_events_post_nothing (tr : list event) :
  Forall notifier_event tr -> posted_urls tr = [].
Proof.
  induction 1 as [| ev tr Hev _ IH]; [reflexivity |].
  destruct ev; cbn in Hev; try contradiction; exact IH.
Qed.

Lemma posted_urls_main :
  posted_urls (fst (main w))
  = posted_urls (fst (snd (start w (KurobbsClient.init (getenv w "TOKEN"))))).
Proof.
  destruct (main_trace_shape w) as (extra & E & F). rewrite E.
  change (posted_urls ([EvLoggerConfig (log_level_of w)]
            ++ fst (snd (start w (KurobbsClient.init (getenv w "TOKEN")))) ++ extra)%list
          = posted_urls (fst (snd (start w (KurobbsClient.init (getenv w "TOKEN")))))).
  rewrite !posted_urls_app, (notifier_events_post_nothing extra F), app_nil_r.
  reflexivity.
Qed.

Lemma urls_differ :
  FIND_ROLE_LIST_API_URL <> USER_SIGN_URL /\ SIGN_URL <> USER_SIGN_URL
  /\ FIND_ROLE_LIST_API_URL <> SIGN_URL.
Proof. repeat split; apply String.eqb_neq; reflexivity. Qed.

End MoreTraces.

(* ================================================================== *)
(** ** More on [checkin] *)
(* ================================================================== *)

(** X1. [checkin] reads the first record of the role list only, and a field
    that record lacks gets its default: 2 for gameId, [None] for serverId,
    0 for roleId and for userId. *)
Theorem checkin_payload_defaults
    (w : World) (tok : option string) (tr : list event)
    (fields : list (string * pyval)) (rest : list pyval) :
  snd (get_user_game_list w 3 (KurobbsClient.init tok))
    = (tr, inr (PList (PDict fields :: rest))) ->
  posted (fst (snd (checkin w (KurobbsClient.init tok)))) =
    [ (FIND_ROLE_LIST_API_URL, [("gameId", PInt 3)]);
      (SIGN_URL, [ ("gameId", get_or fields "gameId" (PInt 2));
                   ("serverId", get_or fields "serverId" PNone);
                   ("roleId", get_or fields "roleId" (PInt 0));
                   ("userId", get_or fields "userId" (PInt 0));
                   ("reqMonth", PStr (format_02d (now_month w))) ]) ].
Proof.
  intros Hl.
  rewrite get_user_game_list_run in Hl. cbn [snd] in Hl.
  rewrite checkin_run. cbv zeta.
  destruct (http_post w FIND_ROLE_LIST_API_URL _ _) as [e | roles]; [discriminate |].
  injection Hl as _ Hd. rewrite Hd. cbn [getitem0 py_get]. fold (get_or fields).
  unfold get_or.
  destruct (http_post w SIGN_URL _ _); reflexivity.
Qed.

Lemma checkin_payload_defaults_witness :
  posted (fst (snd (checkin Sample.partial_record Sample.fresh))) =
    [ (FIND_ROLE_LIST_API_URL, [("gameId", PInt 3)]);
      (SIGN_URL, [ ("gameId", PInt 2); ("serverId", PNone); ("roleId", PInt 55);
                   ("userId", PInt 0); ("reqMonth", PStr "07") ]) ].
Proof.
  exact (checkin_payload_defaults Sample.partial_record (Some "secret") _ _ _ eq_refl).
Defined.

(** X2. [checkin] sends the check-in request exactly when the role-list
    request returned an envelope and the first item of its [data] is a
    dict.  In every other case it raises, with the role-list request as its
    only request: the exception of the transport when the request failed,
    the exception of the index when [data] has no first item (missing,
    empty, not subscriptable), [AttributeError] when the first item is no
    dict. *)
Theorem checkin_request_iff_first_record (w : World) (c : KurobbsClient.t) :
  (In SIGN_URL (posted_urls (fst (snd (checkin w c))))
   <-> exists roles fields,
         http_post w FIND_ROLE_LIST_API_URL (headers_of c) [("gameId", PInt 3)] = inr roles
         /\ getitem0 (Response.data roles) = inr (PDict fields))
  /\ (~ In SIGN_URL (posted_urls (fst (snd (checkin w c)))) ->
      posted_urls (fst (snd (checkin w c))) = [FIND_ROLE_LIST_API_URL]
      /\ snd (snd (checkin w c)) =
         inl match http_post w FIND_ROLE_LIST_API_URL (headers_of c)
                     [("gameId", PInt 3)] with
             | inl e => e
             | inr roles =>
                 match getitem0 (Response.data roles) with
                 | inl e => e
                 | inr v =>
                     PyException "AttributeError"
                       ("'" ++ type_name v ++ "' object has no attribute 'get'")
                 end
             end).
Proof.
  destruct urls_differ as (_ & _ & Hne).
  rewrite checkin_run. cbv zeta.
  destruct (http_post w FIND_ROLE_LIST_API_URL _ _) as [e | roles] eqn:Er.
  { split; [split |].
    - cbn. intros [H | []]. contradiction.
    - intros (r & f & H & _). discriminate.
    - intros _. split; reflexivity. }
  destruct (getitem0 (Response.data roles)) as [e | role] eqn:Eg.
  { split; [split |].
    - cbn. intros [H | []]. contradiction.
    - intros (r & f & H & G). injection H as <-. rewrite Eg in G. discriminate.
    - intros _. split; reflexivity. }
  destruct role as [| b | z | x | s | l | d];
    try (split; [split |];
         [ cbn; intros [H | []]; contradiction
         | intros (r & f & H & G); injection H as <-; rewrite Eg in G; discriminate
         | intros _; split; reflexivity ]).
  cbn [py_get].
  assert (P : In SIGN_URL (posted_urls (fst (snd (checkin w c))))).
  { rewrite checkin_run. cbv zeta. rewrite Er, Eg. cbn [py_get].
    destruct (http_post w SIGN_URL _ _); cbn; right; left; reflexivity. }
  rewrite checkin_run in P. cbv zeta in P. rewrite Er, Eg in P. cbn [py_get] in P.
  split; [split |].
  - intros _. exists roles, d. split; [reflexivity | exact Eg].
  - intros _. exact P.
  - intros N. exfalso. apply N. exact P.
Qed.

Lemma checkin_request_witness :
  In SIGN_URL (posted_urls (fst (snd (checkin Sample.all_good Sample.fresh))))
  /\ ~ In SIGN_URL (posted_urls (fst (snd (checkin Sample.no_records Sample.fresh))))
  /\ snd (snd (checkin Sample.no_records Sample.fresh))
     = inl (PyException "AttributeError" "'str' object has no attribute 'get'").
Proof.
  assert (N : ~ In SIGN_URL
                (posted_urls (fst (snd (checkin Sample.no_records Sample.fresh))))).
  { intros H.
    apply (proj1 (proj1 (checkin_request_iff_first_record
                           Sample.no_records Sample.fresh))) in H.
    destruct H as (r & f & H & G). injection H as <-. discriminate G. }
  split; [| split].
  - apply (proj2 (proj1 (checkin_request_iff_first_record Sample.all_good Sample.fresh))).
    eexists. eexists. split; reflexivity.
  - exact N.
  - exact (proj2 (proj2 (checkin_request_iff_first_record
                           Sample.no_records Sample.fresh) N)).
Defined.

(* ================================================================== *)
(** ** Runs in which an action raises *)
(* ================================================================== *)

(** X3. When [checkin] raises, [start] stops there: the exception leaves
    [start] as it is, nothing is recorded in the client, the sign-in
    request is never made and no info line is logged; the process ends
    with status 1.  The secondary channel is left alone (no request, no
    line of its own), and when the exception is not the client's own the
    primary notifier is not invoked either: no notification at all. *)
Theorem start_aborts_when_checkin_raises (w : World) (tr : list event) (e : exn) :
  let tok := getenv w "TOKEN" in
  snd (checkin w (KurobbsClient.init tok)) = (tr, inl e) ->
  start w (KurobbsClient.init tok) = (KurobbsClient.init tok, (tr, inl e))
  /\ ~ In USER_SIGN_URL (posted_urls (fst (main w)))
  /\ logged INFO (fst (snd (start w (KurobbsClient.init tok)))) = []
  /\ exit_code (snd (main w)) = 1%Z
  /\ (forall cls m, e = PyException cls m -> barked (fst (main w)) = [])
  /\ qmsg_requests (fst (main w)) = []
  /\ logged INFO (fst (main w)) = []
  /\ logged WARNING (fst (main w)) = [].
Proof.
  intros tok H.
  pose proof (start_first_raises w _ _ _ H) as Hs.
  destruct urls_differ as (N1 & N2 & _).
  split; [exact Hs |]. split.
  { rewrite posted_urls_main. fold tok. rewrite Hs. cbn [fst snd].
    pose proof (checkin_posts w (KurobbsClient.init tok)) as P.
    rewrite H in P. cbn [fst snd] in P.
    destruct P as [-> | ->]; cbn; intuition. }
  split.
  { rewrite Hs. cbn [fst snd].
    destruct (action_events_quiet tr) as (_ & _ & L & _); [| exact L].
    pose proof (checkin_events w (KurobbsClient.init tok)) as E.
    rewrite H in E. exact E. }
  split.
  { rewrite exit_code_main, main_body_run. fold tok. rewrite Hs. reflexivity. }
  split.
  { intros cls m ->.
    apply (main_on_unexpected_error w tr cls m). fold tok. rewrite Hs. reflexivity. }
  destruct (action_events_quiet tr) as (_ & _ & LI & LW & _).
  { pose proof (checkin_events w (KurobbsClient.init tok)) as E.
    rewrite H in E. exact E. }
  destruct e as [m | cls m].
  - destruct (main_on_aggregate_failure w tr m) as (_ & T & _ & Q & W & _).
    { fold tok. rewrite Hs. reflexivity. }
    split; [exact Q |]. split; [| exact W].
    rewrite T, logged_cons, logged_app, LI. reflexivity.
  - destruct (main_on_unexpected_error w tr cls m) as (_ & _ & T & _ & Q).
    { fold tok. rewrite Hs. reflexivity. }
    split; [exact Q |].
    split; rewrite T, logged_cons, logged_app, ?LI, ?LW; reflexivity.
Qed.

Lemma start_aborts_witness :
  posted_urls (fst (main Sample.network_down)) = [FIND_ROLE_LIST_API_URL]
  /\ exit_code (snd (main Sample.network_down)) = 1%Z
  /\ barked (fst (main Sample.network_down)) = []
  /\ qmsg_requests (fst (main Sample.network_down)) = [].
Proof.
  destruct (start_aborts_when_checkin_raises Sample.network_down _ _ eq_refl)
    as (_ & _ & _ & E & B & Q & _).
  split; [reflexivity |]. split; [exact E |].
  split; [exact (B _ _ eq_refl) | exact Q].
Defined.

(** X4. When [checkin] has returned an envelope and [sign_in] then raises,
    the outcome of [checkin] is recorded in the client but never reported:
    [_log] is not reached, so no info line is logged, and [main] ends with
    the generic error line, no notification at all and status 1, whether
    the check-in had succeeded or failed. *)
Theorem sign_in_error_hides_checkin_outcome
    (w : World) (t1 t2 : list event) (r1 : Response.t) (cls m : string) :
  let tok := getenv w "TOKEN" in
  snd (checkin w (KurobbsClient.init tok)) = (t1, inr r1) ->
  snd (sign_in w (KurobbsClient.init tok)) = (t2, inl (PyException cls m)) ->
  start w (KurobbsClient.init tok) =
    (recorded "checkin" "签到奖励签到成功" "签到奖励签到失败" r1 (KurobbsClient.init tok),
     ((t1 ++ t2)%list, inl (PyException cls m)))
  /\ logged INFO (fst (main w)) = []
  /\ logged ERROR (fst (main w)) = ["An unexpected error occurred: " ++ m]
  /\ barked (fst (main w)) = []
  /\ qmsg_requests (fst (main w)) = []
  /\ snd (main w) = SysExit 1.
Proof.
  intros tok H1 H2.
  pose proof (start_second_raises w _ _ _ _ _ H1 H2) as Hs.
  split; [exact Hs |].
  destruct (main_on_unexpected_error w (t1 ++ t2) cls m) as (O & _ & T & B & Q).
  { fold tok. rewrite Hs. reflexivity. }
  destruct (action_events_quiet t1) as (_ & _ & I1 & _ & E1).
  { pose proof (checkin_events w (KurobbsClient.init tok)) as E.
    rewrite H1 in E. exact E. }
  destruct (action_events_quiet t2) as (_ & _ & I2 & _ & E2).
  { pose proof (sign_in_events w (KurobbsClient.init tok)) as E.
    rewrite H2 in E. exact E. }
  split; [rewrite T, logged_cons, !logged_app, I1, I2; reflexivity |].
  split; [rewrite T, logged_cons, !logged_app, E1, E2; reflexivity |].
  split; [exact B |]. split; [exact Q | exact O].
Qed.

Lemma sign_in_error_witness :
  result (fst (start Sample.sign_in_down Sample.fresh)) = [("checkin", "签到奖励签到成功")]
  /\ logged INFO (fst (main Sample.sign_in_down)) = []
  /\ barked (fst (main Sample.sign_in_down)) = []
  /\ snd (main Sample.sign_in_down) = SysExit 1.
Proof.
  destruct (sign_in_error_hides_checkin_outcome Sample.sign_in_down _ _ _ _ _
              eq_refl eq_refl) as (S & I & _ & B & _ & O).
  split; [exact (f_equal (fun p => result (fst p)) S) |].
  split; [exact I |]. split; [exact B | exact O].
Defined.

(* ================================================================== *)
(** ** A client that is used again *)
(* ================================================================== *)

Lemma assoc_dict_set_other {A} (k k' : string) (v : A) (d : list (string * A)) :
  k <> k' -> assoc k' (dict_set k v d) = assoc k' d.
Proof.
  intros Hne. induction d as [| [k0 v0] d IH]; cbn.
  - destruct (String.eqb_spec k' k) as [-> | _]; [contradiction | reflexivity].
  - destruct (String.eqb_spec k k0) as [-> | Hk0]; cbn.
    + destruct (String.eqb_spec k' k0) as [-> | _]; [contradiction | reflexivity].
    + rewrite IH. reflexivity.
Qed.

Lemma keys_dict_set {A} (k k' : string) (v : A) (d : list (string * A)) :
  In k' (map fst d) -> In k' (map fst (dict_set k v d)).
Proof.
  induction d as [| [k0 v0] d IH]; cbn; [intros [] |].
  destruct (String.eqb_spec k k0) as [-> | Hk0]; cbn; intuition.
Qed.

Lemma recorded_keys n s f r c k :
  In k (map fst (result c)) -> In k (map fst (result (recorded n s f r c))).
Proof.
  unfold recorded. destruct (succeeded r); cbn; [apply keys_dict_set | auto].
Qed.

(** X5. [start] never clears what the client holds.  On a client that has
    run before, the new failures are appended to the old ones, and [_log]
    raises as soon as any failure is held, a stale one included, even when
    both actions succeed this time; no key of [result] is ever dropped, and
    the success message stored for [checkin] by an earlier run stays when
    the check-in now fails. *)
Theorem start_never_clears_state
    (w : World) (c : KurobbsClient.t) (t1 t2 : list event) (r1 r2 : Response.t) :
  snd (checkin w c) = (t1, inr r1) ->
  snd (sign_in w c) = (t2, inr r2) ->
  let c' := fst (start w c) in
  let held := (exceptions c ++ map KurobbsClientException (failures_of r1 r2))%list in
  exceptions c' = held
  /\ snd (snd (start w c)) =
     match held with
     | [] => inr tt
     | _ => inl (KurobbsClientException (join ", " (map str_exn held)))
     end
  /\ (forall k, In k (map fst (result c)) -> In k (map fst (result c')))
  /\ (succeeded r1 = false -> assoc "checkin" (result c') = assoc "checkin" (result c)).
Proof.
  intros H1 H2 c' held. subst c' held.
  rewrite (start_run w _ _ _ _ _ H1 H2). cbn [fst snd].
  assert (E : exceptions (after_both r1 r2 c)
              = (exceptions c ++ map KurobbsClientException (failures_of r1 r2))%list).
  { unfold after_both, recorded, failures_of.
    destruct (succeeded r1), (succeeded r2); cbn;
      rewrite <- ?app_assoc, ?app_nil_r; reflexivity. }
  split; [exact E |]. split.
  { unfold raised_by_log. rewrite E. reflexivity. }
  split.
  { intros k Hk. unfold after_both. apply recorded_keys, recorded_keys, Hk. }
  intros F. unfold after_both, recorded. rewrite F.
  destruct (succeeded r2); cbn; [| reflexivity].
  apply assoc_dict_set_other. discriminate.
Qed.

Lemma start_never_clears_witness :
  succeeded (Sample.envelope (Some true) PNone) = true
  /\ snd (snd (start Sample.all_good Sample.used))
     = inl (KurobbsClientException "社区签到失败")
  /\ assoc "checkin" (result (fst (start Sample.first_fails Sample.used)))
     = Some "签到奖励签到成功".
Proof.
  split; [reflexivity |]. split.
  - exact (proj1 (proj2 (start_never_clears_state Sample.all_good Sample.used
                           _ _ _ _ eq_refl eq_refl))).
  - exact (proj2 (proj2 (proj2 (start_never_clears_state Sample.first_fails Sample.used
                                  _ _ _ _ eq_refl eq_refl))) eq_refl).
Defined.

(* ================================================================== *)
(** ** The requests of a run *)
(* ================================================================== *)

Section Requests.

Variable w : World.

Lemma start_posts_prefix (c : KurobbsClient.t) :
  exists n, (1 <= n <= 3)%nat
    /\ posted_urls (fst (snd (start w c)))
       = firstn n [FIND_ROLE_LIST_API_URL; SIGN_URL; USER_SIGN_URL].
Proof.
  destruct (snd (checkin w c)) as [t1 [e | r1]] eqn:H1.
  - rewrite (start_first_raises w _ _ _ H1). cbn [fst snd].
    pose proof (checkin_posts w c) as P. rewrite H1 in P. cbn [fst snd] in P.
    destruct P as [-> | ->]; [exists 1%nat | exists 2%nat]; split; (lia || reflexivity).
  - pose proof (checkin_returns_posts w _ _ _ H1) as P1.
    pose proof (sign_in_posts w c) as P2.
    destruct (snd (sign_in w c)) as [t2 [e | r2]] eqn:H2; cbn [fst snd] in P2.
    + rewrite (start_second_raises w _ _ _ _ _ H1 H2). cbn [fst snd].
      exists 3%nat. split; [lia |]. rewrite posted_urls_app, P1, P2. reflexivity.
    + rewrite (start_run w _ _ _ _ _ H1 H2). cbn [fst snd].
      exists 3%nat. split; [lia |]. rewrite !posted_urls_app, P1, P2. reflexivity.
Qed.

Lemma qmsg_requests_main :
  (length (qmsg_requests (fst (main w))) <= 1)%nat.
Proof.
  pose proof (start_events w (KurobbsClient.init (getenv w "TOKEN"))) as F.
  apply client_events_quiet in F. destruct F as (_ & Q & _).
  rewrite main_run, main_body_run.
  destruct (start w (KurobbsClient.init (getenv w "TOKEN"))) as [k' [tr [e | u]]];
    cbn [fst snd] in *.
  - destruct e as [m | cls m]; cbn [fst];
      rewrite qmsg_requests_cons, qmsg_requests_app, Q; cbn; lia.
  - rewrite send_notifications_run.
    destruct (bark w (msg k')) as [e |]; cbn [fst snd].
    + destruct e as [m | cls m]; cbn [fst];
        rewrite qmsg_requests_cons, !qmsg_requests_app, Q; cbn; lia.
    + rewrite qmsg_requests_cons, qmsg_requests_app, Q,
        (qmsg_requests_cons (EvBark (msg k'))), send_qmsg_requests.
      destruct (getenv w "QMSG_TOKEN") as [k |]; [| cbn; lia].
      destruct (k =? EmptyString); cbn; lia.
Qed.

End Requests.

(** X6. A run never repeats a request.  Its POST requests are the role
    list, the check-in and the sign-in, in this order, each at most once
    and cut off where an action raised; the role list is requested in every
    run.  The secondary channel is asked at most once. *)
Theorem requests_in_order_never_repeated (w : World) :
  (exists n, (1 <= n <= 3)%nat
     /\ posted_urls (fst (main w))
        = firstn n [FIND_ROLE_LIST_API_URL; SIGN_URL; USER_SIGN_URL])
  /\ (length (qmsg_requests (fst (main w))) <= 1)%nat.
Proof.
  split; [| apply qmsg_requests_main].
  rewrite posted_urls_main. apply start_posts_prefix.
Qed.

(** X7. Every POST of a run carries the same headers, those built from the
    TOKEN variable of the environment: their [token] entry is the value of
    TOKEN, [None] when the variable is not set, in which case the requests
    are made all the same. *)
Theorem every_request_carries_token (w : World) :
  let h := headers_of (KurobbsClient.init (getenv w "TOKEN")) in
  assoc "token" h = Some (getenv w "TOKEN")
  /\ Forall (sent_with h) (fst (main w))
  /\ exists rest,
       fst (main w)
       = EvLoggerConfig (log_level_of w)
           :: EvPost FIND_ROLE_LIST_API_URL h [("gameId", PInt 3)] :: rest.
Proof.
  intros h. split; [reflexivity |]. split.
  - destruct (main_trace_shape w) as (extra & E & F). rewrite E.
    constructor; [exact I |]. apply Forall_app. split; [apply start_headers |].
    eapply Forall_impl; [| exact F].
    intros ev. destruct ev; cbn; auto. intros [].
  - destruct (main_trace_shape w) as (extra & E & _). rewrite E.
    set (c := KurobbsClient.init (getenv w "TOKEN")).
    assert (S : exists rest, fst (snd (start w c))
                = EvPost FIND_ROLE_LIST_API_URL h [("gameId", PInt 3)] :: rest).
    { assert (C : exists rest, fst (snd (checkin w c))
                  = EvPost FIND_ROLE_LIST_API_URL h [("gameId", PInt 3)] :: rest).
      { rewrite checkin_run. cbv zeta. fold h.
        destruct (http_post w FIND_ROLE_LIST_API_URL _ _) as [e | roles];
          [eexists; reflexivity |].
        destruct (getitem0 (Response.data roles)) as [e | role]; [eexists; reflexivity |].
        destruct (py_get role "gameId" _); [eexists; reflexivity |].
        destruct (py_get role "serverId" _); [eexists; reflexivity |].
        destruct (py_get role "roleId" _); [eexists; reflexivity |].
        destruct (py_get role "userId" _); [eexists; reflexivity |].
        destruct (http_post w SIGN_URL _ _); eexists; reflexivity. }
      destruct C as (rest & C).
      destruct (snd (checkin w c)) as [t1 [e | r1]] eqn:H1; cbn [fst] in C; subst t1.
      - rewrite (start_first_raises w _ _ _ H1). eexists. reflexivity.
      - destruct (snd (sign_in w c)) as [t2 [e | r2]] eqn:H2.
        + rewrite (start_second_raises w _ _ _ _ _ H1 H2). eexists. reflexivity.
        + rewrite (start_run w _ _ _ _ _ H1 H2). eexists. reflexivity. }
    destruct S as (rest & S). rewrite S. eexists. reflexivity.
Qed.

(* ================================================================== *)
(** ** More on the notifiers *)
(* ================================================================== *)

(** X8. With a credential, the secondary push makes exactly one request,
    with a timeout of 10, and writes exactly one log line, which tells the
    outcome: info when the answer is a dict whose [success] is truthy,
    error with the [reason] when [success] is falsy or missing, error with
    the exception when the call raised or the answer is no dict. *)
Theorem qmsg_one_request_one_line (w : World) (message tok : string) :
  (tok =? EmptyString) = false ->
  let url := qmsg_url tok message in
  let line :=
    match http_get_json w url with
    | inl e => EvLog ERROR ("Qmsg推送异常: " ++ str_exn e)
    | inr (PDict d) =>
        if truthy (get_or d "success" PNone) then EvLog INFO "Qmsg推送成功"
        else EvLog ERROR ("Qmsg推送失败: " ++ py_str w (get_or d "reason" PNone))
    | inr v =>
        EvLog ERROR ("Qmsg推送异常: '" ++ type_name v ++ "' object has no attribute 'get'")
    end in
  send_qmsg_notification w message (Some tok) = ([EvGet url 10; line], inr tt).
Proof.
  intros Htok url line. subst line.
  unfold send_qmsg_notification. rewrite Htok. cbn [negb io_bind].
  fold (qmsg_url tok message). fold url.
  destruct (http_get_json w url) as [e | result]; [reflexivity |].
  destruct result; try reflexivity.
  cbn. unfold get_or. destruct (truthy _); reflexivity.
Qed.

Lemma qmsg_one_request_witness :
  send_qmsg_notification Sample.qmsg_refuses "ok!" (Some "k")
  = ([EvGet "https://qmsg.zendee.cn/send/k?msg=ok%21" 10;
      EvLog ERROR "Qmsg推送失败: quota"], inr tt).
Proof.
  exact (qmsg_one_request_one_line Sample.qmsg_refuses "ok!" "k" eq_refl).
Defined.

(** X9. The primary notifier is called outside any handler of its own: when
    it raises on the success path, the secondary channel is not attempted,
    the exception is logged as an unexpected error and the process ends
    with status 1, although both actions had succeeded. *)
Theorem bark_failure_turns_success_into_error (w : World) (cls m : string) :
  let run := start w (KurobbsClient.init (getenv w "TOKEN")) in
  snd (snd run) = inr tt ->
  bark w (msg (fst run)) = Some (PyException cls m) ->
  snd (main w) = SysExit 1
  /\ barked (fst (main w)) = [msg (fst run)]
  /\ qmsg_requests (fst (main w)) = []
  /\ logged WARNING (fst (main w)) = []
  /\ logged ERROR (fst (main w)) = ["An unexpected error occurred: " ++ m].
Proof.
  intros run Hs Hb.
  pose proof (start_events w (KurobbsClient.init (getenv w "TOKEN"))) as F.
  apply client_events_quiet in F. fold run in F. destruct F as (B & Q & W & E).
  assert (Hmb : main_body w (getenv w "TOKEN")
                = ((fst (snd run) ++ [EvBark (msg (fst run))])%list,
                   inl (PyException cls m))).
  { rewrite main_body_run. fold run. rewrite Hs. cbv zeta.
    rewrite send_notifications_run, Hb. reflexivity. }
  rewrite main_run, Hmb. cbn [fst snd].
  split; [reflexivity |].
  split; [rewrite barked_cons, !barked_app, B; reflexivity |].
  split; [rewrite qmsg_requests_cons, !qmsg_requests_app, Q; reflexivity |].
  split; [rewrite logged_cons, !logged_app, W; reflexivity |].
  rewrite logged_cons, !logged_app, E. reflexivity.
Qed.

Lemma bark_failure_witness :
  snd (main Sample.bark_down) = SysExit 1
  /\ qmsg_requests (fst (main Sample.bark_down)) = []
  /\ logged ERROR (fst (main Sample.bark_down))
     = ["An unexpected error occurred: connection refused"].
Proof.
  destruct (bark_failure_turns_success_into_error Sample.bark_down _ _ eq_refl eq_refl)
    as (O & _ & Q & _ & E).
  split; [exact O |]. split; [exact Q | exact E].
Defined.

(** X10. When the primary notifier raises inside the handler of the
    aggregate failure, [sys.exit(1)] is never reached: the exception leaves
    [main] uncaught, after the failure has been logged; the status is 1
    all the same. *)
Theorem bark_failure_in_handler_is_uncaught
    (w : World) (tr : list event) (m : string) (e' : exn) :
  snd (start w (KurobbsClient.init (getenv w "TOKEN")))
    = (tr, inl (KurobbsClientException m)) ->
  bark w "签到任务失败!" = Some e' ->
  snd (main w) = Uncaught e'
  /\ exit_code (snd (main w)) = 1%Z
  /\ logged ERROR (fst (main w)) = [m].
Proof.
  intros Hs Hb.
  destruct (main_on_aggregate_failure w tr m Hs) as (_ & _ & _ & _ & _ & L).
  assert (O : snd (main w) = Uncaught e').
  { rewrite main_run, main_body_run, Hs. cbn [fst snd]. rewrite Hb. reflexivity. }
  rewrite O. repeat split. exact L.
Qed.

Lemma bark_failure_in_handler_witness :
  snd (main Sample.both_fail_bark_down) = Uncaught Sample.unreachable
  /\ exit_code (snd (main Sample.both_fail_bark_down)) = 1%Z.
Proof.
  destruct (bark_failure_in_handler_is_uncaught Sample.both_fail_bark_down _ _ _
              eq_refl eq_refl) as (O & E & _).
  split; [exact O | exact E].
Defined.

(* ================================================================== *)
(** ** What is written to standard output *)
(* ================================================================== *)

Lemma stdout_lines_filter (l : level) (tr : list event) :
  Forall not_config tr ->
  stdout_lines (Some l) tr
  = filter (fun p => (level_no l <=? level_no (fst p))%Z) (log_lines tr).
Proof.
  induction 1 as [| ev tr Hev _ IH]; [reflexivity |].
  destruct ev as [u h d | u n | l' s | m | l']; cbn in Hev; try contradiction;
    cbn; try exact IH.
  destruct (level_no l <=? level_no l')%Z; rewrite IH; reflexivity.
Qed.

Lemma main_configures_once (w : World) :
  exists rest,
    fst (main w) = EvLoggerConfig (log_level_of w) :: rest /\ Forall not_config rest.
Proof.
  destruct (main_trace_shape w) as (extra & E & F).
  eexists. split; [exact E |].
  apply Forall_app. split.
  - eapply Forall_impl; [| apply start_events].
    intros ev. destruct ev; cbn; auto.
  - eapply Forall_impl; [| exact F].
    intros ev. destruct ev; cbn; auto.
Qed.

(** X11. The DEBUG variable decides what reaches standard output.  Set to
    any non-empty text, "false" and "0" included, every log line of the run
    is written, the dumps of the envelopes among them; unset or empty, the
    debug lines are dropped and all other lines are written, in order. *)
Theorem stdout_follows_debug_flag (w : World) :
  stdout_lines None (fst (main w)) =
  if truthy_opt_str (getenv w "DEBUG") then log_lines (fst (main w))
  else filter (fun p => negb (level_eqb (fst p) DEBUG)) (log_lines (fst (main w))).
Proof.
  destruct (main_configures_once w) as (rest & E & F). rewrite E.
  change (stdout_lines (Some (log_level_of w)) rest =
          if truthy_opt_str (getenv w "DEBUG") then log_lines rest
          else filter (fun p => negb (level_eqb (fst p) DEBUG)) (log_lines rest)).
  rewrite (stdout_lines_filter _ rest F). unfold log_level_of.
  destruct (truthy_opt_str (getenv w "DEBUG")).
  - induction (log_lines rest) as [| [l s] ls IH]; [reflexivity |].
    cbn [filter]. rewrite IH. destruct l; reflexivity.
  - apply filter_ext. intros [l s]. destruct l; reflexivity.
Qed.

(** A run with DEBUG set to "false" writes its debug lines. *)
Example debug_false_is_debug :
  length (stdout_lines None (fst (main Sample.debug_on))) = 5
  /\ length (stdout_lines None (fst (main Sample.all_good))) = 2.
Proof. split; reflexivity. Qed.

(* ================================================================== *)
(** ** The query of the secondary request *)
(* ================================================================== *)

Lemma url_safeb_safe (c : ascii) : url_safeb c = true -> url_safe c.
Proof.
  unfold url_safeb, url_safe. intros H.
  apply orb_true_iff in H. destruct H as [H | H].
  - apply orb_true_iff in H. destruct H as [H | H]; [left; exact H |].
    right. left. apply Ascii.eqb_eq, H.
  - right. right. apply Ascii.eqb_eq, H.
Qed.

Lemma quote_byte_safe (c : ascii) :
  forallb url_safeb (list_ascii_of_string (quote_byte c)) = true
  /\ (String.length (quote_byte c) = 1 \/ String.length (quote_byte c) = 3).
Proof.
  destruct c as [[] [] [] [] [] [] [] []]; split; vm_compute; auto.
Qed.

Lemma list_ascii_of_string_app (a b : string) :
  list_ascii_of_string (a ++ b) = (list_ascii_of_string a ++ list_ascii_of_string b)%list.
Proof. induction a as [| c a IH]; cbn; [reflexivity | rewrite IH; reflexivity]. Qed.

Lemma string_length_app (a b : string) :
  String.length (a ++ b) = String.length a + String.length b.
Proof. induction a as [| c a IH]; cbn; [reflexivity | rewrite IH; reflexivity]. Qed.

Lemma quote_safe (s : string) :
  Forall url_safe (list_ascii_of_string (quote s))
  /\ String.length s <= String.length (quote s) <= 3 * String.length s.
Proof.
  induction s as [| c s [IHs IHl]]; [split; [constructor | cbn; lia] |].
  cbn [quote]. destruct (quote_byte_safe c) as (Hs & Hl). split.
  - rewrite list_ascii_of_string_app. apply Forall_app. split; [| exact IHs].
    apply Forall_forall. intros x Hx. apply url_safeb_safe.
    rewrite forallb_forall in Hs. apply Hs, Hx.
  - rewrite string_length_app. cbn [String.length]. lia.
Qed.

Lemma decode_quote_byte (c : ascii) (r : string) :
  percent_decode (quote_byte c ++ r) = String c (percent_decode r).
Proof. destruct c as [[] [] [] [] [] [] [] []]; reflexivity. Qed.

Lemma append_assoc (a b c : string) : (a ++ b) ++ c = a ++ (b ++ c).
Proof. induction a as [| x a IH]; cbn; [reflexivity | rewrite IH; reflexivity]. Qed.

Lemma append_empty (a : string) : a ++ EmptyString = a.
Proof. induction a as [| x a IH]; cbn; [reflexivity | rewrite IH; reflexivity]. Qed.

Lemma decode_quote_app (s r : string) :
  percent_decode (quote s ++ r) = s ++ percent_decode r.
Proof.
  induction s as [| c s IH]; [reflexivity |].
  cbn [quote]. rewrite append_assoc, decode_quote_byte, IH. reflexivity.
Qed.

Lemma decode_quote (s : string) : percent_decode (quote s) = s.
Proof.
  rewrite <- (append_empty (quote s)), decode_quote_app. cbn [percent_decode].
  apply append_empty.
Qed.

(** X12. With a credential, the one request of the secondary push goes to
    the fixed endpoint, followed by the credential as it is and, after
    [?msg=], by the message percent-encoded.  That query carries the whole
    message, which percent-decoding gives back byte for byte, and it holds
    only ASCII letters, digits and [_ . - ~ / %], between one and three
    characters for each byte of the message, so the message cannot add a
    parameter or a fragment to the URL. *)
Theorem qmsg_message_is_url_safe (w : World) (message tok : string) :
  (tok =? EmptyString) = false ->
  let q := quote message in
  qmsg_requests (fst (send_qmsg_notification w message (Some tok)))
    = ["https://qmsg.zendee.cn/send/" ++ tok ++ "?msg=" ++ q]
  /\ percent_decode q = message
  /\ Forall url_safe (list_ascii_of_string q)
  /\ String.length message <= String.length q <= 3 * String.length message.
Proof.
  intros Htok q. subst q.
  split; [rewrite send_qmsg_requests, Htok; reflexivity |].
  split; [apply decode_quote | apply quote_safe].
Qed.

Lemma qmsg_message_witness :
  qmsg_requests (fst (send_qmsg_notification Sample.all_good "a&b=c #1" (Some "k")))
    = ["https://qmsg.zendee.cn/send/k?msg=a%26b%3Dc%20%231"]
  /\ percent_decode "a%26b%3Dc%20%231" = "a&b=c #1"
  /\ Forall url_safe (list_ascii_of_string "a%26b%3Dc%20%231").
Proof.
  destruct (qmsg_message_is_url_safe Sample.all_good "a&b=c #1" "k" eq_refl)
    as (U & D & S & _).
  split; [exact U |]. split; [exact D | exact S].
Defined.

(** A message in Chinese, as the script sends: encoded and decoded. *)
Example qmsg_message_quoted :
  quote "签到!" = "%E7%AD%BE%E5%88%B0%21"
  /\ percent_decode "%E7%AD%BE%E5%88%B0%21" = "签到!".
Proof. split; reflexivity. Qed.

(* ================================================================== *)
(** ** The skip of the secondary push, on a concrete run *)
(* ================================================================== *)

